(** * Nutrition aggregator: a shallow embedding of [azurite_function.py]
      and [data_analysis.py]

    The two scripts load a table of recipes, group it by diet type with
    pandas, and write the aggregates as JSON files that play the role of
    a document store.  This development embeds the aggregation and the
    document shaping as Rocq functions and states the properties of the
    specification over them.

    Conventions.
    - A [DataFrame] is the list of its rows, in index order; the string
      columns hold strings (the input contract of the specification), the
      three macronutrient columns hold floats, NaN standing for null.
    - A Python [float] is an element of a type [num] that carries the
      operations of the class [FloatOps].  Two instances are given:
      [binary64] (IEEE 754 double precision, through [SpecFloat]) and
      [exact] (rationals extended with one null value: no rounding, no
      infinities).  What depends on the rows, the groups and their order
      only is proved for every instance.  What depends on arithmetic is
      proved for [exact], and [binary64] shows what rounding does to it.
    - A Python [str] is a [string] whose characters are the code points
      below 256 (Latin-1); [lower] is [str.lower] on these, and strings
      are ordered code point by code point.
    - The pandas and numpy calls are modelled by their documented
      behaviour: [mean], [max] and [min] skip NaN, [groupby] sorts its
      keys, [unique] lists in order of first appearance and
      [value_counts] in descending order of count.  [print] calls only
      write to the terminal and are left out.
    - The repository pins no version of pandas.  Two things that the
      scripts rely on and that pandas does not fix across its versions
      are the fields of the class [Pandas]: whether a fill in place made
      through [df[col]] reaches the frame, and the order in which
      [value_counts] lists equal counts.  The properties are proved for
      every [Pandas], under the laws of [PandasLaws] where the order of
      the counts matters; the examples run on the instance
      [pandas_view].
    - The files of the store, the directories and the clock form a
      [World]; the functions that touch them are computations in the
      monad [M], which threads the world and propagates exceptions. *)

From Stdlib Require Import ZArith QArith SpecFloat Ascii String OrderedTypeEx Lia Lqa.
From stdpp Require Import gmap strings list fin_maps sorting pretty.

#[local] Set Warnings "-clear-no-such-hyp".

Close Scope Q_scope.
Close Scope Z_scope.
Local Open Scope string_scope.
Local Open Scope nat_scope.

(** ** Floating-point interface *)

(** The operations the scripts apply to a [float]. *)
Class FloatOps (num : Type) := {
  nan : num;
  isnan : num → bool;
  fzero : num;
  fadd : num → num → num;
  fdiv : num → num → num;
  of_int : nat → num;
  feqb : num → num → bool;
  fltb : num → num → bool
}.

(** The facts about NaN that hold in every IEEE arithmetic: NaN is a NaN,
    NaN compares unequal to everything, and a quotient with a NaN operand
    is a NaN. *)
Class NaNLaws (num : Type) `{FloatOps num} := {
  isnan_nan : isnan nan = true;
  feqb_nan : ∀ x y, isnan x = true → feqb x y = false;
  fdiv_nan_l : ∀ x y, isnan x = true → isnan (fdiv x y) = true;
  fdiv_nan_r : ∀ x y, isnan y = true → isnan (fdiv x y) = true
}.

(** *** IEEE 754 binary64 *)

Module B64.
Definition prec : Z := 53.
Definition emax : Z := 1024.

Definition is_nan (x : spec_float) : bool :=
  match x with S754_nan => true | _ => false end.

Definition of_Z (z : Z) : spec_float := binary_normalize prec emax z 0 false.
Definition add : spec_float → spec_float → spec_float := SFadd prec emax.
Definition div : spec_float → spec_float → spec_float := SFdiv prec emax.

(** The double nearest to the decimal [n / 10^k], for [n] and [10^k]
    below 2^53: the value of the field ["0.1"] is [decimal 1 1]. *)
Definition decimal (n : Z) (k : nat) : spec_float :=
  div (of_Z n) (of_Z (10 ^ Z.of_nat k)).
End B64.

#[export] Instance binary64 : FloatOps spec_float := {|
  nan := S754_nan;
  isnan := B64.is_nan;
  fzero := S754_zero false;
  fadd := B64.add;
  fdiv := B64.div;
  of_int n := B64.of_Z (Z.of_nat n);
  feqb := SFeqb;
  fltb := SFltb
|}.

(** *** Exact arithmetic *)

(** Rationals with a null value.  There is no rounding and there are no
    infinities: a quotient with divisor zero is null. *)
Module Exact.
Definition t : Type := option Q.

Definition is_nan (x : t) : bool :=
  match x with None => true | Some _ => false end.

Definition add (x y : t) : t :=
  match x, y with
  | Some a, Some b => Some (a + b)%Q
  | _, _ => None
  end.

Definition div (x y : t) : t :=
  match x, y with
  | Some a, Some b => if Qeq_bool b 0 then None else Some (a / b)%Q
  | _, _ => None
  end.

Definition of_nat (n : nat) : t := Some (inject_Z (Z.of_nat n)).

Definition eqb (x y : t) : bool :=
  match x, y with
  | Some a, Some b => Qeq_bool a b
  | _, _ => false
  end.

Definition ltb (x y : t) : bool :=
  match x, y with
  | Some a, Some b => negb (Qle_bool b a)
  | _, _ => false
  end.

(** [x <= y] between two defined values. *)
Definition le (x y : t) : Prop :=
  match x, y with
  | Some a, Some b => (a <= b)%Q
  | _, _ => False
  end.
End Exact.

#[export] Instance exact : FloatOps Exact.t := {|
  nan := None;
  isnan := Exact.is_nan;
  fzero := Some 0%Q;
  fadd := Exact.add;
  fdiv := Exact.div;
  of_int := Exact.of_nat;
  feqb := Exact.eqb;
  fltb := Exact.ltb
|}.

(** ** Strings *)

(** A character is a code point below 256.  The upper-case letters of
    this range are A..Z (65..90), the letters from A with grave to O with
    diaeresis (192..214) and from O with stroke to thorn (216..222); the
    code point 215 between them is the multiplication sign. *)
Definition is_upper (c : ascii) : bool :=
  let n := nat_of_ascii c in
  ((65 <=? n) && (n <=? 90) || (192 <=? n) && (n <=? 214) ||
   (216 <=? n) && (n <=? 222))%nat.

(** [str.lower] on one character: an upper-case letter moves to its
    lower-case letter, 32 code points up; every other character of the
    range stays. *)
Definition lower_char (c : ascii) : ascii :=
  if is_upper c then ascii_of_nat (nat_of_ascii c + 32) else c.

(** [str.lower]. *)
Fixpoint lower (s : string) : string :=
  match s with
  | EmptyString => EmptyString
  | String c s' => String (lower_char c) (lower s')
  end.

(** [s.replace(a, b)] for one-character [a] and [b]. *)
Fixpoint replace (a b : ascii) (s : string) : string :=
  match s with
  | EmptyString => EmptyString
  | String c s' => String (if Ascii.eqb c a then b else c) (replace a b s')
  end.

(** The order [sorted] and pandas use on strings. *)
Definition str_le (a b : string) : Prop := String.leb a b = true.
Definition str_lt (a b : string) : Prop := String.ltb a b = true.

#[export] Instance str_le_dec : RelDecision str_le.
Proof. intros a b. unfold str_le. apply _. Defined.

(** [os.path.join(d, f)] for a relative file name [f]. *)
Definition os_path_join (d f : string) : string := d ++ "/" ++ f.

(** ** Data model *)

(** One row of the dataset. *)
Record Row (num : Type) := mkRow {
  Diet_type : string;
  Recipe_name : string;
  Cuisine_type : string;
  Protein : num;
  Carbs : num;
  Fat : num
}.
Arguments mkRow {num}.
Arguments Diet_type {num}.
Arguments Recipe_name {num}.
Arguments Cuisine_type {num}.
Arguments Protein {num}.
Arguments Carbs {num}.
Arguments Fat {num}.

Abbreviation DataFrame num := (list (Row num)).

(** The columns ["Protein(g)"], ["Carbs(g)"] and ["Fat(g)"]. *)
Inductive Macro := Protein_g | Carbs_g | Fat_g.

(** A row of [avg_macros]: the group key (the index) and the three means. *)
Record AvgRow (num : Type) := mkAvg {
  avg_Diet_type : string;
  avg_Protein : num;
  avg_Carbs : num;
  avg_Fat : num
}.
Arguments mkAvg {num}.
Arguments avg_Diet_type {num}.
Arguments avg_Protein {num}.
Arguments avg_Carbs {num}.
Arguments avg_Fat {num}.

(** A value of [detailed_stats]. *)
Record DietStats (num : Type) := mkStats {
  count : nat;
  avg_protein : num;
  avg_carbs : num;
  avg_fat : num;
  max_protein : num;
  min_protein : num;
  top_cuisines : list (string * nat)
}.
Arguments mkStats {num}.
Arguments count {num}.
Arguments avg_protein {num}.
Arguments avg_carbs {num}.
Arguments avg_fat {num}.
Arguments max_protein {num}.
Arguments min_protein {num}.
Arguments top_cuisines {num}.

Record Metadata := mkMeta {
  processed_at : string;
  total_records : nat;
  diet_types : list string;
  cuisine_types : list string;
  source_blob : string;
  source_container : string
}.

Record Macronutrients (num : Type) := mkMacros {
  protein_g : num;
  carbs_g : num;
  fat_g : num
}.
Arguments mkMacros {num}.
Arguments protein_g {num}.
Arguments carbs_g {num}.
Arguments fat_g {num}.

(** One element of [documents]. *)
Record Document (num : Type) := mkDoc {
  _id : string;
  diet_type : string;
  macronutrients : Macronutrients num;
  recipe_count : nat;
  cuisines : list (string * nat);
  created_at : string;
  updated_at : string
}.
Arguments mkDoc {num}.
Arguments _id {num}.
Arguments diet_type {num}.
Arguments macronutrients {num}.
Arguments recipe_count {num}.
Arguments cuisines {num}.
Arguments created_at {num}.
Arguments updated_at {num}.

(** A row of the frame [add_new_metrics] returns: the input row and the
    two new columns. *)
Record MetricRow (num : Type) := mkMetric {
  row : Row num;
  Protein_to_Carbs_ratio : num;
  Carbs_to_Fat_ratio : num
}.
Arguments mkMetric {num}.
Arguments row {num}.
Arguments Protein_to_Carbs_ratio {num}.
Arguments Carbs_to_Fat_ratio {num}.

(** ** pandas and numpy *)

(** [Series.unique()]: the distinct values in order of first appearance. *)
Fixpoint Series_unique (s : list string) : list string :=
  match s with
  | [] => []
  | x :: s' => x :: filter (λ y, y ≠ x) (Series_unique s')
  end.

(** [Series.head(n)]. *)
Definition Series_head {A : Type} (n : nat) (s : list A) : list A := take n s.

(** The number of rows of [s] equal to [c]. *)
Definition occurrences (c : string) (s : list string) : nat :=
  length (filter (λ x, x = c) s).

(** The position at which [c] is first seen in [s]. *)
Fixpoint first_seen (c : string) (s : list string) : nat :=
  match s with
  | [] => 0
  | x :: s' => if decide (x = c) then 0 else S (first_seen c s')
  end.

(** *** The installed pandas *)

(** What the scripts leave to the pandas that runs them.
    - [copy_on_write]: with copy-on-write (the rule from pandas 3 on) a
      Series taken from a frame never writes into the frame; before it,
      [df[col]] is a view of the column and a change in place reaches the
      frame.
    - [value_counts_sort]: the sort that [value_counts] applies to the
      counts it has tabulated, [sort_values(ascending=False)] with the
      default [kind].  pandas documents the descending order only; the
      order of equal counts is that of the sorting routine, which is not
      a stable one by default. *)
Class Pandas := {
  copy_on_write : bool;
  value_counts_sort : list (string * nat) → list (string * nat)
}.

(** What every [value_counts_sort] does: it rearranges the entries, and
    no entry comes before an entry of larger count. *)
Class PandasLaws (pd : Pandas) := {
  value_counts_sort_Permutation : ∀ l, value_counts_sort l ≡ₚ l;
  value_counts_sort_descending :
    ∀ l, StronglySorted (λ a b : string * nat, b.2 ≤ a.2) (value_counts_sort l)
}.

(** Two such sorts.  Insertion of one entry in a list ordered by
    descending count: the entry goes in front of the first entry whose
    count is not larger. *)
Fixpoint insert_desc (x : string * nat) (l : list (string * nat)) : list (string * nat) :=
  match l with
  | [] => [x]
  | y :: l' => if (x.2 <? y.2)%nat then y :: insert_desc x l' else x :: y :: l'
  end.

(** A stable descending sort: entries of equal count keep the order they
    have in the input. *)
Definition stable_descending (l : list (string * nat)) : list (string * nat) :=
  foldr insert_desc [] l.

(** Insertion of one entry in a list ordered by ascending count, in front
    of the first entry whose count is not smaller. *)
Fixpoint insert_asc (x : string * nat) (l : list (string * nat)) : list (string * nat) :=
  match l with
  | [] => [x]
  | y :: l' => if (y.2 <? x.2)%nat then y :: insert_asc x l' else x :: y :: l'
  end.

(** A stable ascending sort read backwards, as a [sort_values] gives
    that sorts in ascending order and reverses the result: entries of
    equal count come out in the reverse of the order they have in the
    input. *)
Definition ascending_reversed (l : list (string * nat)) : list (string * nat) :=
  reverse (foldr insert_asc [] l).

(** [Series.value_counts()]: the distinct values with their number of
    occurrences, tabulated in order of first appearance and then sorted by
    descending count. *)
Definition Series_value_counts {pd : Pandas} (s : list string) : list (string * nat) :=
  value_counts_sort ((λ c, (c, occurrences c s)) <$> Series_unique s).

Section Numeric.
Context {num : Type} `{FloatOps num} {pd : Pandas}.

(** [Series.mean()] with the default [skipna=True]: the sum of the values
    that are not NaN, divided by their number; NaN when there is none.
    The values are added from first to last (the order in which pandas
    adds them is its own matter and only affects the rounding). *)
Definition Series_mean (s : list num) : num :=
  let '(total, nobs) :=
    foldl (λ '(total, nobs) x,
             if isnan x then (total, nobs) else (fadd total x, S nobs))
          (fzero, 0) s in
  if (nobs =? 0)%nat then nan else fdiv total (of_int nobs).

Definition fmax (x y : num) : num := if fltb x y then y else x.
Definition fmin (x y : num) : num := if fltb y x then y else x.

(** [Series.max()] and [Series.min()] with [skipna=True]. *)
Definition Series_max (s : list num) : num :=
  match filter (λ x, isnan x = false) s with
  | [] => nan
  | x :: xs => foldl fmax x xs
  end.

Definition Series_min (s : list num) : num :=
  match filter (λ x, isnan x = false) s with
  | [] => nan
  | x :: xs => foldl fmin x xs
  end.

(** [Series.fillna(v)]. *)
Definition Series_fillna (v : num) (s : list num) : list num :=
  (λ x, if isnan x then v else x) <$> s.

(** [np.where(cond, x, y)] for an array [x] and a scalar [y]. *)
Definition np_where (cond : list bool) (x : list num) (y : num) : list num :=
  zip_with (λ (c : bool) v, if c then v else y) cond x.

(** *** Frames *)

Definition getcol (c : Macro) (r : Row num) : num :=
  match c with
  | Protein_g => Protein r
  | Carbs_g => Carbs r
  | Fat_g => Fat r
  end.

Definition setcol (c : Macro) (v : num) (r : Row num) : Row num :=
  match c with
  | Protein_g => mkRow (Diet_type r) (Recipe_name r) (Cuisine_type r) v (Carbs r) (Fat r)
  | Carbs_g => mkRow (Diet_type r) (Recipe_name r) (Cuisine_type r) (Protein r) v (Fat r)
  | Fat_g => mkRow (Diet_type r) (Recipe_name r) (Cuisine_type r) (Protein r) (Carbs r) v
  end.

(** [df[col]] for a macronutrient column. *)
Definition column (c : Macro) (df : DataFrame num) : list num := getcol c <$> df.

(** [df[df["Diet_type"] == diet_type]]. *)
Definition select_diet (diet_type : string) (df : DataFrame num) : DataFrame num :=
  filter (λ r, Diet_type r = diet_type) df.

(** The frame [df] with the NaN of its column [c] replaced by [v]. *)
Definition fill_column (c : Macro) (v : num) (df : DataFrame num) : DataFrame num :=
  (λ r, if isnan (getcol c r) then setcol c v r else r) <$> df.

(** [df[col].fillna(v, inplace=True)], the frame after the statement.
    The fill is made in place on the Series [df[col]].  Where that Series
    is a view of the column, the frame has its column filled; under
    copy-on-write the Series filled is a temporary object and the frame
    stays as it is (pandas warns of it, and the scripts silence the
    warnings). *)
Definition fillna_inplace (c : Macro) (v : num) (df : DataFrame num) : DataFrame num :=
  if copy_on_write then df else fill_column c v df.

(** The group keys of [df.groupby("Diet_type")]: distinct, in sorted order. *)
Definition group_keys (df : DataFrame num) : list string :=
  merge_sort str_le (Series_unique (Diet_type <$> df)).

(** [df.groupby("Diet_type")[["Protein(g)", "Carbs(g)", "Fat(g)"]].mean()]. *)
Definition groupby_mean (df : DataFrame num) : list (AvgRow num) :=
  (λ k, let g := select_diet k df in
         mkAvg k (Series_mean (column Protein_g g))
                 (Series_mean (column Carbs_g g))
                 (Series_mean (column Fat_g g)))
    <$> group_keys df.

(** [row[col]] for a row of [avg_macros]. *)
Definition avg_get (c : Macro) (a : AvgRow num) : num :=
  match c with
  | Protein_g => avg_Protein a
  | Carbs_g => avg_Carbs a
  | Fat_g => avg_Fat a
  end.

(** [avg_macros.loc[k]], when [k] is a group key. *)
Definition avg_loc (k : string) (avg_macros : list (AvgRow num)) : option (AvgRow num) :=
  list_find (λ a, avg_Diet_type a = k) avg_macros ≫= λ p, Some p.2.

End Numeric.

(** ** The outside world: files, directories and the clock *)

Inductive exn := FileNotFoundError | TypeError.

#[export] Instance exn_eq_dec : EqDecision exn.
Proof. solve_decision. Defined.

Inductive result (A : Type) :=
| Ok (a : A)
| Raise (e : exn).
Arguments Ok {A}.
Arguments Raise {A}.

(** The JSON value held by a file, by the shape the scripts write. *)
Inductive Content (num : Type) :=
| AvgMacronutrients (rows : list (AvgRow num))
| DetailedStatistics (stats : gmap string (DietStats num))
| MetadataJson (meta : Metadata)
| DietDocuments (docs : list (Document num)).
Arguments AvgMacronutrients {num}.
Arguments DetailedStatistics {num}.
Arguments MetadataJson {num}.
Arguments DietDocuments {num}.

(** [clock] gives the reading of the [n]-th call of [datetime.now()] and
    [ticks] counts the calls made so far. *)
Record World (num : Type) := mkWorld {
  files : gmap string (Content num);
  dirs : gset string;
  clock : nat → string;
  ticks : nat
}.
Arguments mkWorld {num}.
Arguments files {num}.
Arguments dirs {num}.
Arguments clock {num}.
Arguments ticks {num}.

(** A computation that reads and changes the world and returns a value or
    raises. *)
Definition M (num A : Type) : Type := World num → result A * World num.

#[export] Instance M_ret {num} : MRet (M num) := λ A a w, (Ok a, w).

#[export] Instance M_bind {num} : MBind (M num) := λ A B f m w,
  match m w with
  | (Ok a, w') => f a w'
  | (Raise e, w') => (Raise e, w')
  end.

(** [try: m except e: handler]. *)
Definition try_except {num A} (m : M num A) (e : exn) (handler : M num A) : M num A :=
  λ w, match m w with
       | (Raise e', w') => if decide (e' = e) then handler w' else (Raise e', w')
       | r => r
       end.

Section Scripts.
Context {num : Type} `{FloatOps num} {pd : Pandas}.

(** [datetime.now().isoformat()]. *)
Definition datetime_now_isoformat : M num string :=
  λ w, (Ok (clock w (ticks w)), mkWorld (files w) (dirs w) (clock w) (S (ticks w))).

(** [with open(os.path.join(d, f), "w") as fh: json.dump(c, fh)]: the file
    is created or overwritten; opening fails when the directory is
    missing. *)
Definition json_dump (c : Content num) (d f : string) : M num unit :=
  λ w, if decide (d ∈ dirs w)
       then (Ok (), mkWorld (<[os_path_join d f := c]> (files w)) (dirs w) (clock w) (ticks w))
       else (Raise FileNotFoundError, w).

(** [with open(path, "r") as fh: json.load(fh)]. *)
Definition json_load (path : string) : M num (Content num) :=
  λ w, match files w !! path with
       | Some c => (Ok c, w)
       | None => (Raise FileNotFoundError, w)
       end.

(** ** azurite_function.py *)

Record AzuriteFunction := mkSelf {
  container_name : string;
  blob_name : string;
  nosql_dir : string
}.

(** [AzuriteFunction.__init__]. *)
Definition AzuriteFunction_init : AzuriteFunction :=
  mkSelf "datasets" "AllDiets.csv" "simulated_nosql".

Definition setup_nosql_directory (self : AzuriteFunction) : M num unit :=
  λ w, if decide (nosql_dir self ∈ dirs w)
       then (Ok (), w)
       else (Ok (), mkWorld (files w) ({[nosql_dir self]} ∪ dirs w) (clock w) (ticks w)).

Definition calculate_averages (df : DataFrame num) : list (AvgRow num) :=
  groupby_mean df.

(** The value stored under one key of [detailed_stats]. *)
Definition diet_statistics (diet_data : DataFrame num) : DietStats num :=
  mkStats (length diet_data)
          (Series_mean (column Protein_g diet_data))
          (Series_mean (column Carbs_g diet_data))
          (Series_mean (column Fat_g diet_data))
          (Series_max (column Protein_g diet_data))
          (Series_min (column Protein_g diet_data))
          (Series_head 3 (Series_value_counts (Cuisine_type <$> diet_data))).

(** Step 2 of [store_in_nosql]: the loop that fills [detailed_stats]. *)
Definition detailed_statistics (df : DataFrame num) : gmap string (DietStats num) :=
  foldl (λ detailed_stats diet_type,
           let diet_data := select_diet diet_type df in
           <[diet_type := diet_statistics diet_data]> detailed_stats)
        ∅ (Series_unique (Diet_type <$> df)).

(** The dictionary [document] built for one row of [avg_macros], given the
    two clock readings. *)
Definition make_document (row : AvgRow num) (df : DataFrame num)
    (created updated : string) : Document num :=
  let diet_type := avg_Diet_type row in
  let diet_data := select_diet diet_type df in
  mkDoc (replace " " "_" (lower diet_type))
        diet_type
        (mkMacros (avg_Protein row) (avg_Carbs row) (avg_Fat row))
        (length diet_data)
        (Series_head 5 (Series_value_counts (Cuisine_type <$> diet_data)))
        created updated.

(** Step 4 of [store_in_nosql]: the loop over [avg_macros.iterrows()],
    which appends one document per row. *)
Fixpoint build_documents (rows : list (AvgRow num)) (df : DataFrame num)
    (documents : list (Document num)) : M num (list (Document num)) :=
  match rows with
  | [] => mret documents
  | row :: rows' =>
      created ← datetime_now_isoformat;
      updated ← datetime_now_isoformat;
      let document := make_document row df created updated in
      build_documents rows' df (documents ++ [document])
  end.

Definition store_in_nosql (self : AzuriteFunction) (avg_macros : list (AvgRow num))
    (df : DataFrame num) : M num (list (AvgRow num)) :=
  setup_nosql_directory self;;
  let results := avg_macros in
  json_dump (AvgMacronutrients results) (nosql_dir self) "avg_macronutrients.json";;
  let detailed_stats := detailed_statistics df in
  json_dump (DetailedStatistics detailed_stats) (nosql_dir self) "detailed_statistics.json";;
  now ← datetime_now_isoformat;
  let metadata :=
    mkMeta now (length df)
           (Series_unique (Diet_type <$> df))
           (Series_unique (Cuisine_type <$> df))
           (blob_name self) (container_name self) in
  json_dump (MetadataJson metadata) (nosql_dir self) "metadata.json";;
  documents ← build_documents avg_macros df [];
  json_dump (DietDocuments documents) (nosql_dir self) "diet_documents.json";;
  mret results.

(** The documents held by the file [query_nosql] reads; a file of another
    shape makes the loops over it fail. *)
Definition as_documents (c : Content num) : M num (list (Document num)) :=
  match c with
  | DietDocuments docs => mret docs
  | _ => λ w, (Raise TypeError, w)
  end.

(** Truth value of the optional argument [diet_type]: [None] and the empty
    string are false. *)
Definition truthy (diet_type' : option string) : bool :=
  match diet_type' with
  | None => false
  | Some s => negb (String.eqb s "")
  end.

(** The list comprehension of [query_nosql]. *)
Definition matching (diet_type' : string) (documents : list (Document num)) : list (Document num) :=
  filter (λ doc, lower (diet_type doc) = lower diet_type') documents.

(** [query_nosql] returns [documents] on both branches; [result] is
    computed for printing only.  The value [None] of Python is [None]. *)
Definition query_nosql (self : AzuriteFunction) (diet_type' : option string)
    : M num (option (list (Document num))) :=
  let documents_file := os_path_join (nosql_dir self) "diet_documents.json" in
  try_except
    (content ← json_load documents_file;
     documents ← as_documents content;
     if truthy diet_type'
     then let result := matching (default "" diet_type') documents in
          mret (Some documents)
     else mret (Some documents))
    FileNotFoundError
    (mret None).

(** The part of [process_data] that follows the reading of the frame. *)
Definition process_frame (self : AzuriteFunction) (df : DataFrame num)
    : M num string :=
  let avg_macros := calculate_averages df in
  results ← store_in_nosql self avg_macros df;
  mret "Data processed and stored successfully".

(** ** data_analysis.py *)

Definition numeric_columns : list Macro := [Protein_g; Carbs_g; Fat_g].

(** [load_and_clean_data] after [pd.read_csv]: [df] is the frame read.
    The three columns are columns of every frame here, so the test
    [col in df.columns] succeeds. *)
Definition load_and_clean_data (df : DataFrame num) : DataFrame num :=
  foldl (λ df col, fillna_inplace col (Series_mean (column col df)) df)
        df numeric_columns.

Definition calculate_average_macros (df : DataFrame num) : list (AvgRow num) :=
  groupby_mean df.

Definition add_new_metrics (df : DataFrame num) : list (MetricRow num) :=
  let protein_to_carbs :=
    np_where ((λ c, negb (feqb c fzero)) <$> column Carbs_g df)
             (zip_with fdiv (column Protein_g df) (column Carbs_g df))
             nan in
  let carbs_to_fat :=
    np_where ((λ f, negb (feqb f fzero)) <$> column Fat_g df)
             (zip_with fdiv (column Carbs_g df) (column Fat_g df))
             nan in
  zip_with (λ '(r, pc) cf, mkMetric r pc cf) (zip df protein_to_carbs) carbs_to_fat.

(** The analysis steps of [main] that the aggregates depend on: the frame
    is cleaned first and every later step receives the cleaned frame. *)
Definition main_analysis (df_read : DataFrame num)
    : list (AvgRow num) * list (MetricRow num) :=
  let df := load_and_clean_data df_read in
  let avg_macros := calculate_average_macros df in
  let df := add_new_metrics df in
  (avg_macros, df).

End Scripts.

(** ** Notions of the specification *)

Section Notions.
Context {num : Type} `{FloatOps num} {pd : Pandas}.

(** The mean of the specification's computeMeans: the values that are
    null are left out of the sum and of the count, and the mean of no
    value at all is undefined. *)
Definition mean_excluding_null (values : list num) : num :=
  let present := filter (λ x, isnan x = false) values in
  match present with
  | [] => nan
  | _ => fdiv (foldl fadd fzero present) (of_int (length present))
  end.

(** computeMeans of the specification, read at one diet type: the records
    are partitioned by [Diet_type] and each field is averaged over the
    partition. *)
Definition computeMeans (records : DataFrame num) (d : string) : option (AvgRow num) :=
  let partition := filter (λ r, Diet_type r = d) records in
  match partition with
  | [] => None
  | _ => Some (mkAvg d (mean_excluding_null (Protein <$> partition))
                       (mean_excluding_null (Carbs <$> partition))
                       (mean_excluding_null (Fat <$> partition)))
  end.

(** The entry [a] is ranked before [b]: its count is larger, or the counts
    are equal and its cuisine is seen first in [seen]. *)
Definition ranked_before (seen : list string) (a b : string * nat) : Prop :=
  b.2 < a.2 ∨ (a.2 = b.2 ∧ first_seen a.1 seen < first_seen b.1 seen).

(** The cuisine of [a] is seen before the cuisine of [b]. *)
Definition tabulated_before (seen : list string) (a b : string * nat) : Prop :=
  first_seen a.1 seen < first_seen b.1 seen.

(** Entries ordered by strictly descending count, entries of equal count
    in the order in which their cuisine is first seen in [seen]. *)
Definition ranked (seen : list string) (l : list (string * nat)) : Prop :=
  ∀ i j a b, i < j → l !! i = Some a → l !! j = Some b → ranked_before seen a b.

(** Entries in descending order of count: no entry comes before an entry
    of larger count. *)
Definition descending (l : list (string * nat)) : Prop :=
  ∀ i j a b, i < j → l !! i = Some a → l !! j = Some b → b.2 ≤ a.2.

(** The top-[k] cuisine entries [l] of a group of [total] records whose
    cuisines are [seen]: at most [k] entries, and [k] of them unless the
    group has fewer cuisines; in descending order of count; no cuisine
    twice; each entry a cuisine of the group with the number of its
    records; no cuisine left out that has more records than a cuisine
    listed; and counts that add up to at most [total]. *)
Definition top_cuisines_ok (k total : nat) (seen : list string)
    (l : list (string * nat)) : Prop :=
  length l ≤ k ∧
  length l = min k (length (Series_unique seen)) ∧
  descending l ∧
  NoDup l.*1 ∧
  (∀ c n, (c, n) ∈ l → c ∈ seen ∧ n = occurrences c seen) ∧
  (∀ c n c', (c, n) ∈ l → c' ∈ seen → c' ∉ l.*1 → occurrences c' seen ≤ n) ∧
  sum_list l.*2 ≤ total.

(** The alphabet of the code points below 256: the upper-case letters
    and, at the same positions, their lower-case letters. *)
Definition upper_case : list ascii :=
  (list_ascii_of_string "ABCDEFGHIJKLMNOPQRSTUVWXYZ" ++
   (ascii_of_nat <$> seq 192 23) ++ (ascii_of_nat <$> seq 216 7))%list.

Definition lower_case : list ascii :=
  (list_ascii_of_string "abcdefghijklmnopqrstuvwxyz" ++
   (ascii_of_nat <$> seq 224 23) ++ (ascii_of_nat <$> seq 248 7))%list.

(** The lower-case form of a character, looked up in the alphabet. *)
Definition lowercase_of (c : ascii) : ascii :=
  match list_find (λ u, u = c) upper_case with
  | Some (i, _) => default c (lower_case !! i)
  | None => c
  end.

(** The [_id] that the specification gives the document of a diet type:
    the diet type with every letter in lower case and every space turned
    into an underscore. *)
Fixpoint document_id (s : string) : string :=
  match s with
  | EmptyString => EmptyString
  | String c s' =>
      String (if Ascii.eqb c " " then "_"%char else lowercase_of c) (document_id s')
  end.

(** The documents of step 4 of [store_in_nosql] when the clock has been
    read [t] times before: the row of index [i] gets the readings
    [t + 2 i] and [t + 2 i + 1]. *)
Definition documents_from (clock : nat → string) (t : nat)
    (avg_macros : list (AvgRow num)) (df : DataFrame num) : list (Document num) :=
  imap (λ i row, make_document row df (clock (t + 2 * i)) (clock (t + 2 * i + 1)))
       avg_macros.

(** The world that [store_in_nosql] leaves. *)
Definition stored (self : AzuriteFunction) (avg_macros : list (AvgRow num))
    (df : DataFrame num) (w : World num) : World num :=
  let d := nosql_dir self in
  let metadata :=
    mkMeta (clock w (ticks w)) (length df)
           (Series_unique (Diet_type <$> df))
           (Series_unique (Cuisine_type <$> df))
           (blob_name self) (container_name self) in
  mkWorld
    (<[os_path_join d "diet_documents.json" :=
         DietDocuments (documents_from (clock w) (S (ticks w)) avg_macros df)]>
     (<[os_path_join d "metadata.json" := MetadataJson metadata]>
      (<[os_path_join d "detailed_statistics.json" :=
           DetailedStatistics (detailed_statistics df)]>
       (<[os_path_join d "avg_macronutrients.json" := AvgMacronutrients avg_macros]>
        (files w)))))
    (if decide (d ∈ dirs w) then dirs w else {[d]} ∪ dirs w)
    (clock w)
    (S (ticks w) + 2 * length avg_macros).

(** A document and a file without their timestamps. *)
Definition erase_document_times (d : Document num) : Document num :=
  mkDoc (_id d) (diet_type d) (macronutrients d) (recipe_count d) (cuisines d) "" "".

Definition erase_times (c : Content num) : Content num :=
  match c with
  | DietDocuments docs => DietDocuments (erase_document_times <$> docs)
  | MetadataJson m =>
      MetadataJson (mkMeta "" (total_records m) (diet_types m) (cuisine_types m)
                           (source_blob m) (source_container m))
  | c => c
  end.

End Notions.

(** ** The rest of data_analysis.py *)

(** What [find_highest_protein_diet] raises on a frame without rows.
    The frame that [pd.read_csv] makes of a file with a header and no
    record has columns of type object, on which the grouped mean raises
    [TypeError]; on an empty frame of float columns the grouped mean is
    empty and [avg_protein.index[0]] raises [IndexError].  Which of the
    two depends on the types of the columns, which a frame without rows
    does not show here. *)
Inductive analysis_error := TypeError_or_IndexError.

Section Analysis.
Context {num : Type} `{FloatOps num}.

(** The place of two keys in a descending sort that puts NaN last: [x]
    goes after [y] when [x] is smaller than [y], or when [x] is NaN and
    [y] is not. *)
Definition sorts_after (x y : num) : bool :=
  (isnan x && negb (isnan y)) || fltb x y.

Fixpoint insert_descending {A : Type} (key : A → num) (r : A) (l : list A) : list A :=
  match l with
  | [] => [r]
  | y :: l' =>
      if sorts_after (key r) (key y) then y :: insert_descending key r l'
      else r :: y :: l'
  end.

(** [sort_values(..., ascending=False)] on floats: descending, NaN last
    (the default [na_position]).  Rows of equal key keep their order
    here; pandas leaves their order to its sorting routine. *)
Definition sort_values_descending {A : Type} (key : A → num) (l : list A) : list A :=
  foldr (insert_descending key) [] l.

(** [df.groupby("Diet_type").head(n)]: the rows whose rank inside their
    group is below [n], in the order of the frame.  [seen] holds the
    diet types of the rows already passed. *)
Fixpoint groupby_head_from (n : nat) (seen : list string) (df : DataFrame num)
    : DataFrame num :=
  match df with
  | [] => []
  | r :: df' =>
      if decide (occurrences (Diet_type r) seen < n)
      then r :: groupby_head_from n (Diet_type r :: seen) df'
      else groupby_head_from n (Diet_type r :: seen) df'
  end.

Definition groupby_head (n : nat) (df : DataFrame num) : DataFrame num :=
  groupby_head_from n [] df.

(** The value [top_protein] that [find_top_protein_recipes] returns. *)
Definition find_top_protein_recipes (df : DataFrame num) : DataFrame num :=
  groupby_head 5 (sort_values_descending Protein df).

(** The table [diet_recipes] that the loop of [find_top_protein_recipes]
    prints for one diet type: recipe, protein and cuisine of at most 5
    rows of [top_protein]. *)
Definition diet_recipes (diet_type' : string) (top_protein : DataFrame num)
    : list (string * num * string) :=
  Series_head 5 ((λ r, (Recipe_name r, Protein r, Cuisine_type r))
                   <$> select_diet diet_type' top_protein).

(** [df.groupby("Diet_type")["Protein(g)"].mean()]. *)
Definition groupby_protein_mean (df : DataFrame num) : list (string * num) :=
  (λ k, (k, Series_mean (column Protein_g (select_diet k df)))) <$> group_keys df.

(** [find_highest_protein_diet]: the value returned is [avg_protein], the
    mean protein by diet type in descending order.  On a frame without
    rows the call raises, in the grouped mean or at the latest in
    [avg_protein.index[0]] of the report line.  ([total_protein] is
    printed only.) *)
Definition find_highest_protein_diet (df : DataFrame num)
    : analysis_error + list (string * num) :=
  let avg_protein := sort_values_descending snd (groupby_protein_mean df) in
  match avg_protein with
  | [] => inl TypeError_or_IndexError
  | _ :: _ => inr avg_protein
  end.

End Analysis.

(** ** Azurite and [process_data] *)

(** The bytes of a CSV file or blob, by what [read_csv_from_azurite]
    makes of them.  [CsvBlob df] is a file that [pd.read_csv] parses into
    the frame [df]: the columns that the aggregation reads are there,
    with strings for the diet type and the cuisine and floats for the
    macronutrients.  [OtherBlob] is a file that does not parse or has no
    column [Diet_type], on which [read_csv_from_azurite] returns [None].
    A file that parses and has the column [Diet_type] but lacks one of
    the other columns, or holds text in a macronutrient column, is
    neither: [calculate_averages] or [store_in_nosql] raises on its
    frame, outside any [try], and such a file is not among the blobs of
    this model. *)
Inductive Blob (num : Type) :=
| CsvBlob (df : DataFrame num)
| OtherBlob.
Arguments CsvBlob {num}.
Arguments OtherBlob {num}.

(** The machine [process_data] runs on: the world of the store, the
    Azurite service ([None] when it cannot be reached, else its
    containers with their blobs) and the CSV files of the working
    directory, which are kept apart from the JSON files of the store. *)
Record Machine (num : Type) := mkMachine {
  world : World num;
  azurite : option (gmap string (gmap string (Blob num)));
  local_files : gmap string (Blob num)
}.
Arguments mkMachine {num}.
Arguments world {num}.
Arguments azurite {num}.
Arguments local_files {num}.

Definition P (num A : Type) : Type := Machine num → result A * Machine num.

#[export] Instance P_ret {num} : MRet (P num) := λ A a m, (Ok a, m).

#[export] Instance P_bind {num} : MBind (P num) := λ A B f c m,
  match c m with
  | (Ok a, m') => f a m'
  | (Raise e, m') => (Raise e, m')
  end.

(** A computation on the store, run on the machine. *)
Definition lift_world {num A} (c : M num A) : P num A :=
  λ m, let '(r, w) := c (world m) in (r, mkMachine w (azurite m) (local_files m)).

Section Azurite.
Context {num : Type} `{FloatOps num} {pd : Pandas}.

(** [os.path.exists] on a path of the working directory: true of a CSV
    file and of a directory. *)
Definition os_path_exists (path : string) (m : Machine num) : bool :=
  bool_decide (is_Some (local_files m !! path)) || bool_decide (path ∈ dirs (world m)).

(** Listing the containers succeeds when the service answers. *)
Definition test_azurite_connection (self : AzuriteFunction) : P num bool :=
  λ m, (Ok (bool_decide (is_Some (azurite m))), m).

(** The container is created when it is missing and used as it is
    otherwise; the blob is written over.  Every exception (service out of
    reach, a path at which no file can be opened, such as a directory)
    ends in [False]. *)
Definition upload_csv_to_azurite (self : AzuriteFunction) (local_csv_path : string)
    : P num bool :=
  λ m, match azurite m with
       | None => (Ok false, m)
       | Some containers =>
           let container := default ∅ (containers !! container_name self) in
           match local_files m !! local_csv_path with
           | None =>
               (Ok false,
                mkMachine (world m)
                          (Some (<[container_name self := container]> containers))
                          (local_files m))
           | Some data =>
               (Ok true,
                mkMachine (world m)
                          (Some (<[container_name self :=
                                     <[blob_name self := data]> container]> containers))
                          (local_files m))
           end
       end.

(** The frame of the blob, or [None] after any exception (service out of
    reach, container or blob missing, bytes that do not parse). *)
Definition read_csv_from_azurite (self : AzuriteFunction) : P num (option (DataFrame num)) :=
  λ m, match azurite m with
       | Some containers =>
           match containers !! container_name self with
           | Some container =>
               match container !! blob_name self with
               | Some (CsvBlob df) => (Ok (Some df), m)
               | _ => (Ok None, m)
               end
           | None => (Ok None, m)
           end
       | None => (Ok None, m)
       end.

Definition process_data (self : AzuriteFunction) (local_csv_path : option string)
    : P num string :=
  connected ← test_azurite_connection self;
  if negb connected then mret "Failed: Azurite is not running or not accessible"
  else
    uploaded ← (λ m, if truthy local_csv_path && os_path_exists (default "" local_csv_path) m
                     then upload_csv_to_azurite self (default "" local_csv_path) m
                     else (Ok true, m));
    if negb uploaded then mret "Failed: Could not upload CSV to Azurite"
    else
      df ← read_csv_from_azurite self;
      match df with
      | None => mret "Failed: Could not read data from Azurite"
      | Some df =>
          let avg_macros := calculate_averages df in
          results ← lift_world (store_in_nosql self avg_macros df);
          mret "Data processed and stored successfully"
      end.

(** The machine after the optional upload of [process_data]. *)
Definition after_upload (self : AzuriteFunction) (local_csv_path : option string)
    (m : Machine num) : Machine num :=
  if truthy local_csv_path && os_path_exists (default "" local_csv_path) m
  then (upload_csv_to_azurite self (default "" local_csv_path) m).2
  else m.

End Azurite.

(** ** Order of values in exact arithmetic *)

(** [x] is not below [y]: a null is below every value and not below a
    null. *)
Definition not_below (x y : Exact.t) : Prop :=
  match x, y with
  | Some a, Some b => (b <= a)%Q
  | None, Some _ => False
  | _, None => True
  end.

(** ** Example data *)

Module Examples.

(** A rational as a value of the exact arithmetic. *)
Definition q (n : Z) : Exact.t := Some (inject_Z n).

(** The scenario of the specification. *)
Definition scenario : DataFrame Exact.t :=
  [ mkRow "paleo" "recipe 1" "american" (q 30) (q 5) (q 10);
    mkRow "paleo" "recipe 2" "american" (q 20) (q 0) (q 10);
    mkRow "vegan" "recipe 3" "asian" (q 10) (q 40) (q 2) ].

(** The same records, the carbs of the vegan record missing. *)
Definition scenario_null : DataFrame Exact.t :=
  [ mkRow "paleo" "recipe 1" "american" (q 30) (q 5) (q 10);
    mkRow "paleo" "recipe 2" "american" (q 20) (q 0) (q 10);
    mkRow "vegan" "recipe 3" "asian" (q 10) None (q 2) ].

(** Three keto recipes of 0.1 g protein each, in binary64. *)
Definition keto3 : DataFrame spec_float :=
  let tenth := B64.decimal 1 1 in
  let one := B64.of_Z 1 in
  [ mkRow "keto" "recipe 1" "american" tenth one one;
    mkRow "keto" "recipe 2" "american" tenth one one;
    mkRow "keto" "recipe 3" "french" tenth one one ].

(** An empty store and a clock that reads the number of the call. *)
Definition world0 {num} : World num := mkWorld ∅ ∅ (λ n, pretty n) 0.

(** Two installations of pandas.  In the first a fill in place reaches
    the frame and [value_counts] lists equal counts in the reverse of
    their order of first appearance; the examples run on it.  In the
    second, copy-on-write is the rule and equal counts keep their order
    of first appearance. *)
#[export] Instance pandas_view : Pandas :=
  {| copy_on_write := false; value_counts_sort := ascending_reversed |}.

Definition pandas_copy_on_write : Pandas :=
  {| copy_on_write := true; value_counts_sort := stable_descending |}.

(** Eleven keto recipes of seven cuisines: d three times, a and b twice,
    b seen before a. *)
Definition cuisines11 : list string :=
  ["c"; "b"; "a"; "d"; "b"; "a"; "d"; "d"; "e"; "f"; "g"].

Definition keto11 : DataFrame Exact.t :=
  (λ c, mkRow "keto" "recipe" c (q 1) (q 1) (q 1)) <$> cuisines11.

(** Three recipes of three diet types; the third diet type is written
    with a capital E with acute accent, the code point 201. *)
Definition ecole : string := String "201" "COLE Diet".

Definition diets3 : DataFrame Exact.t :=
  [ mkRow "Paleo Diet" "recipe 1" "american" (q 30) (q 5) (q 10);
    mkRow ecole "recipe 2" "french" (q 20) (q 0) (q 10);
    mkRow "keto" "recipe 3" "asian" (q 10) (q 40) (q 2) ].


End Examples.

(** Machines for the examples: the scenario as the file [AllDiets.csv]
    of the working directory, with the service running and empty, or out
    of reach. *)
Module Machines.

Definition machine_up : Machine Exact.t :=
  mkMachine Examples.world0 (Some ∅) {[ "AllDiets.csv" := CsvBlob Examples.scenario ]}.

Definition machine_down : Machine Exact.t :=
  mkMachine Examples.world0 None {[ "AllDiets.csv" := CsvBlob Examples.scenario ]}.

End Machines.

(** * Properties *)

Import Examples.
Import Machines.

(** ** The two arithmetics obey the NaN laws *)

#[export] Instance binary64_laws : NaNLaws spec_float.
Proof.
  split.
  - reflexivity.
  - by intros [] y.
  - by intros [] y.
  - by intros [] [].
Qed.

#[export] Instance exact_laws : NaNLaws Exact.t.
Proof.
  split.
  - reflexivity.
  - by intros [] y.
  - by intros [] y.
  - by intros [] [].
Qed.

(** ** The two sorts obey the laws of [value_counts_sort] *)

Section Sorts.
Implicit Types (x : string * nat) (l : list (string * nat)).

Lemma insert_desc_Permutation x l : insert_desc x l ≡ₚ x :: l.
Proof.
  induction l as [| y l IH]; simpl; [done |].
  destruct (x.2 <? y.2); [| done]. rewrite IH. apply Permutation_swap.
Qed.

Lemma stable_descending_Permutation l : stable_descending l ≡ₚ l.
Proof.
  induction l as [| x l IH]; simpl; [done |].
  by rewrite insert_desc_Permutation, IH.
Qed.

Lemma insert_desc_descending x l :
  StronglySorted (λ a b, b.2 ≤ a.2) l → StronglySorted (λ a b, b.2 ≤ a.2) (insert_desc x l).
Proof.
  induction 1 as [| y l Hs IH Hy]; simpl; [repeat constructor |].
  destruct (Nat.ltb_spec x.2 y.2) as [Hlt | Hge].
  - constructor; [done |]. rewrite insert_desc_Permutation.
    constructor; [simpl; lia | done].
  - constructor; [by constructor |]. constructor; [done |].
    eapply Forall_impl; [exact Hy |]. intros z Hz. simpl in *. lia.
Qed.

Lemma stable_descending_descending l :
  StronglySorted (λ a b, b.2 ≤ a.2) (stable_descending l).
Proof.
  induction l as [| x l IH]; simpl; [constructor |]. by apply insert_desc_descending.
Qed.

Lemma insert_asc_Permutation x l : insert_asc x l ≡ₚ x :: l.
Proof.
  induction l as [| y l IH]; simpl; [done |].
  destruct (y.2 <? x.2); [| done]. rewrite IH. apply Permutation_swap.
Qed.

Lemma insert_asc_ascending x l :
  StronglySorted (λ a b, a.2 ≤ b.2) l → StronglySorted (λ a b, a.2 ≤ b.2) (insert_asc x l).
Proof.
  induction 1 as [| y l Hs IH Hy]; simpl; [repeat constructor |].
  destruct (Nat.ltb_spec y.2 x.2) as [Hlt | Hge].
  - constructor; [done |]. rewrite insert_asc_Permutation.
    constructor; [simpl; lia | done].
  - constructor; [by constructor |]. constructor; [done |].
    eapply Forall_impl; [exact Hy |]. intros z Hz. simpl in *. lia.
Qed.

Lemma StronglySorted_reverse {A} (R : relation A) (l : list A) :
  StronglySorted R l → StronglySorted (flip R) (reverse l).
Proof.
  induction 1 as [| x l Hs IH Hx]; [constructor |].
  rewrite reverse_cons. apply StronglySorted_app_2; [| done | repeat constructor].
  intros a b Ha Hb. apply list_elem_of_singleton in Hb as ->.
  rewrite elem_of_reverse in Ha. rewrite Forall_forall in Hx. by apply Hx.
Qed.

Lemma ascending_reversed_Permutation l : ascending_reversed l ≡ₚ l.
Proof.
  unfold ascending_reversed. rewrite reverse_Permutation.
  induction l as [| x l IH]; simpl; [done |].
  by rewrite insert_asc_Permutation, IH.
Qed.

Lemma ascending_reversed_descending l :
  StronglySorted (λ a b, b.2 ≤ a.2) (ascending_reversed l).
Proof.
  unfold ascending_reversed.
  apply (StronglySorted_reverse (λ a b : string * nat, a.2 ≤ b.2)).
  induction l as [| x l IH]; simpl; [constructor |]. by apply insert_asc_ascending.
Qed.

End Sorts.

#[export] Instance pandas_view_laws : PandasLaws pandas_view.
Proof.
  split; [apply ascending_reversed_Permutation | apply ascending_reversed_descending].
Qed.

#[export] Instance pandas_copy_on_write_laws : PandasLaws pandas_copy_on_write.
Proof.
  split; [apply stable_descending_Permutation | apply stable_descending_descending].
Qed.

(** ** The order on strings *)

Lemma str_lt_cmp a b : str_lt a b ↔ String_as_OT.lt a b.
Proof.
  unfold str_lt, String.ltb. rewrite <- String_as_OT.cmp_lt.
  unfold String_as_OT.cmp. destruct (String.compare a b); intuition discriminate.
Qed.

Lemma str_le_lt_eq a b : str_le a b ↔ str_lt a b ∨ a = b.
Proof.
  unfold str_le, str_lt, String.leb, String.ltb.
  pose proof (String_as_OT.cmp_eq a b) as He. unfold String_as_OT.cmp in He.
  destruct (String.compare a b); intuition discriminate.
Qed.

Lemma str_lt_irrefl a : ¬ str_lt a a.
Proof. rewrite str_lt_cmp. intros Hl. by apply String_as_OT.lt_not_eq in Hl. Qed.

#[export] Instance str_lt_trans : Transitive str_lt.
Proof. intros a b c. rewrite !str_lt_cmp. apply String_as_OT.lt_trans. Qed.

#[export] Instance str_le_trans : Transitive str_le.
Proof.
  intros a b c. rewrite !str_le_lt_eq.
  intros [Hab | ->] [Hbc | ->]; auto. left. by trans b.
Qed.

#[export] Instance str_le_total : Total str_le.
Proof. intros a b. apply String.leb_total. Qed.

#[export] Instance str_le_antisym : AntiSymm (=) str_le.
Proof. intros a b. apply String.leb_antisym. Qed.

(** A list sorted by [str_le] without duplicates is strictly ascending. *)
Lemma StronglySorted_str_lt (l : list string) :
  StronglySorted str_le l → NoDup l → StronglySorted str_lt l.
Proof.
  induction 1 as [| x l Hs IH Hx]; intros Hnd; [constructor |].
  apply NoDup_cons in Hnd as [Hnotin Hnd].
  constructor; [by apply IH |].
  rewrite Forall_forall in Hx |- *. intros y Hy.
  destruct (proj1 (str_le_lt_eq x y) (Hx y Hy)) as [? | ->]; [done |].
  by destruct Hnotin.
Qed.
(** ** Distinct values and group keys *)

Lemma elem_of_unique x s : x ∈ Series_unique s ↔ x ∈ s.
Proof.
  induction s as [| y s IH]; simpl; [done |].
  rewrite !elem_of_cons, list_elem_of_filter, IH.
  destruct (decide (x = y)); naive_solver.
Qed.

Lemma NoDup_unique s : NoDup (Series_unique s).
Proof.
  induction s as [| y s IH]; simpl; [constructor |].
  apply NoDup_cons. split; [| by apply NoDup_filter].
  rewrite list_elem_of_filter. naive_solver.
Qed.

(** When the rows of [l] are classified by [f] and [keys] lists every
    class once, the sizes of the classes add up to the length of [l]. *)
Lemma sum_class_lengths {A} (f : A → string) (l : list A) (keys : list string) :
  NoDup keys → (∀ r, r ∈ l → f r ∈ keys) →
  sum_list_with (λ d, length (filter (λ r, f r = d) l)) keys = length l.
Proof.
  intros Hnd. induction l as [| r l IH]; intros Hin.
  - clear. induction keys as [| k keys IHk]; simpl in *; [done | exact IHk].
  - assert (Hone : ∀ ks, NoDup ks →
      sum_list_with (λ d, length (filter (λ r0, f r0 = d) (r :: l))) ks =
      (if decide (f r ∈ ks) then 1 else 0) +
      sum_list_with (λ d, length (filter (λ r0, f r0 = d) l)) ks).
    { clear. induction ks as [| k ks IHk]; intros Hnd; simpl; [done |].
      apply NoDup_cons in Hnd as [Hk Hnd]. rewrite IHk by done.
      rewrite filter_cons.
      destruct (decide (f r = k)) as [Heq | Hne]; simpl;
        repeat case_decide; try lia; exfalso; set_solver. }
    rewrite Hone by done.
    rewrite decide_True by (apply Hin; left).
    rewrite IH; [done |]. intros r0 Hr0. apply Hin. by right.
Qed.

(** The occurrences of the distinct values of a column add up to its
    length. *)
Lemma sum_occurrences (s : list string) :
  sum_list_with (λ c, occurrences c s) (Series_unique s) = length s.
Proof.
  apply (sum_class_lengths id); [apply NoDup_unique |].
  intros c Hc. by apply elem_of_unique.
Qed.

Section Groups.
Context {num : Type} `{FloatOps num} {pd : Pandas}.
Implicit Types (df : DataFrame num) (d : string).

Lemma elem_of_group_keys df d : d ∈ group_keys df ↔ d ∈ Diet_type <$> df.
Proof. unfold group_keys. by rewrite merge_sort_Permutation, elem_of_unique. Qed.

Lemma NoDup_group_keys df : NoDup (group_keys df).
Proof. unfold group_keys. rewrite merge_sort_Permutation. apply NoDup_unique. Qed.

Lemma group_keys_sorted df : StronglySorted str_lt (group_keys df).
Proof.
  apply StronglySorted_str_lt; [| apply NoDup_group_keys].
  apply StronglySorted_merge_sort; apply _.
Qed.

Lemma select_diet_nil df d : select_diet d df = [] ↔ d ∉ Diet_type <$> df.
Proof.
  unfold select_diet. induction df as [| r df IH].
  - split; [intros _; apply not_elem_of_nil | done].
  - rewrite filter_cons, fmap_cons, not_elem_of_cons.
    destruct (decide (Diet_type r = d)) as [-> | Hne]; naive_solver.
Qed.

(** The counts of the groups of a frame add up to its length. *)
Lemma sum_group_lengths df (keys : list string) :
  NoDup keys → (∀ r, r ∈ df → Diet_type r ∈ keys) →
  sum_list_with (λ d, length (select_diet d df)) keys = length df.
Proof. apply (sum_class_lengths Diet_type). Qed.

End Groups.

(** ** Detailed statistics *)

Section Statistics.
Context {num : Type} `{FloatOps num} {pd : Pandas}.
Implicit Types (df : DataFrame num) (d : string).

(** The loop that fills a dictionary key by key. *)
Lemma foldl_insert_lookup {V} (g : string → V) (keys : list string) (m : gmap string V) d :
  foldl (λ acc k, <[k := g k]> acc) m keys !! d =
  if decide (d ∈ keys) then Some (g d) else m !! d.
Proof.
  revert m. induction keys as [| k keys IH]; intros m; simpl; [done |].
  rewrite IH. destruct (decide (d = k)) as [-> | Hne].
  - rewrite lookup_insert_eq. repeat case_decide; try done; set_solver.
  - rewrite lookup_insert_ne by done. repeat case_decide; try done; set_solver.
Qed.

(** Every diet type of the frame has its entry, computed from the rows of
    that diet type; there is no other entry. *)
Lemma detailed_statistics_lookup df d :
  detailed_statistics df !! d =
  if decide (d ∈ Diet_type <$> df) then Some (diet_statistics (select_diet d df)) else None.
Proof.
  unfold detailed_statistics.
  rewrite (foldl_insert_lookup (λ k, diet_statistics (select_diet k df))).
  rewrite lookup_empty. repeat case_decide; try done; rewrite elem_of_unique in *; done.
Qed.

Lemma detailed_statistics_to_list df :
  map_to_list (detailed_statistics df) ≡ₚ
  (λ k, (k, diet_statistics (select_diet k df))) <$> Series_unique (Diet_type <$> df).
Proof.
  set (l := (λ k, (k, diet_statistics (select_diet k df))) <$> _).
  assert (Hfst : l.*1 = Series_unique (Diet_type <$> df)).
  { unfold l. rewrite <- list_fmap_compose. apply list_fmap_id. }
  assert (Hnd : NoDup l.*1) by (rewrite Hfst; apply NoDup_unique).
  rewrite <- (map_to_list_to_map l Hnd). f_equiv.
  apply map_eq. intros d. rewrite detailed_statistics_lookup.
  case_decide as Hd.
  - symmetry. apply elem_of_list_to_map; [done |].
    unfold l. apply list_elem_of_fmap. exists d. by rewrite elem_of_unique.
  - symmetry. apply not_elem_of_list_to_map. by rewrite Hfst, elem_of_unique.
Qed.

(** C3.  The counts stored in the detailed statistics, added up over the
    diet types, give the number of records of the frame; the count of
    each diet type is the number of records of that diet type. *)
Theorem detailed_counts_sum_to_total df :
  sum_list_with (λ entry, count entry.2) (map_to_list (detailed_statistics df)) = length df ∧
  ∀ d stats, detailed_statistics df !! d = Some stats →
    count stats = length (filter (λ r, Diet_type r = d) df).
Proof.
  split.
  - rewrite detailed_statistics_to_list.
    transitivity (sum_list_with (λ d, length (select_diet d df))
                    (Series_unique (Diet_type <$> df))).
    + generalize (Series_unique (Diet_type <$> df)). intros ks.
      induction ks as [| k ks IH]; csimpl; [done |]. by rewrite IH.
    + apply sum_group_lengths; [apply NoDup_unique |].
      intros r Hr. rewrite elem_of_unique. by apply list_elem_of_fmap_2.
  - intros d stats. rewrite detailed_statistics_lookup. case_decide; [| done].
    by intros [= <-].
Qed.

End Statistics.

(** The scenario of the specification: two paleo records. *)
Lemma detailed_counts_sum_to_total_witness :
  count (diet_statistics (select_diet "paleo" scenario)) = 2.
Proof.
  exact (proj2 (detailed_counts_sum_to_total scenario) "paleo" _ eq_refl).
Defined.

(** ** Grouped means *)

Section Means.
Context {num : Type} `{FloatOps num} {pd : Pandas}.
Implicit Types (df : DataFrame num) (d : string) (s : list num).

(** The accumulators of the one-pass mean hold the sum and the number of
    the values that are not NaN. *)
Lemma mean_accumulators s (total : num) (nobs : nat) :
  foldl (λ '(total, nobs) x,
           if isnan x then (total, nobs) else (fadd total x, S nobs))
        (total, nobs) s =
  (foldl fadd total (filter (λ x, isnan x = false) s),
   nobs + length (filter (λ x, isnan x = false) s)).
Proof.
  revert total nobs. induction s as [| x s IH]; intros total nobs; simpl.
  - by rewrite Nat.add_0_r.
  - rewrite filter_cons. destruct (isnan x) eqn:Hx.
    + rewrite decide_False by done. apply IH.
    + rewrite decide_True by done. rewrite IH. simpl. f_equal. lia.
Qed.

Lemma Series_mean_excluding_null s : Series_mean s = mean_excluding_null s.
Proof.
  unfold Series_mean, mean_excluding_null. rewrite mean_accumulators.
  destruct (filter _ s) as [| x xs]; done.
Qed.

Lemma Series_mean_all_null s :
  Forall (λ x, isnan x = true) s → Series_mean s = nan.
Proof.
  intros Hall. rewrite Series_mean_excluding_null. unfold mean_excluding_null.
  replace (filter (λ x, isnan x = false) s) with (@nil num); [done |].
  symmetry. induction Hall as [| x s Hx _ IH]; [done |].
  rewrite filter_cons, decide_False by congruence. exact IH.
Qed.

Lemma avg_loc_fmap (f : string → AvgRow num) (keys : list string) d :
  (∀ k, avg_Diet_type (f k) = k) →
  avg_loc d (f <$> keys) = if decide (d ∈ keys) then Some (f d) else None.
Proof.
  intros Hkey. unfold avg_loc. induction keys as [| k keys IH]; [done |].
  rewrite fmap_cons. cbn [list_find]. rewrite Hkey.
  destruct (decide (k = d)) as [-> | Hne]; simpl.
  - by rewrite decide_True by left.
  - destruct (list_find _ (f <$> keys)) as [[i a] |] eqn:Hfind; simpl in *;
      repeat case_decide; try done; set_solver.
Qed.

(** C2.  The grouped means of the code are the means of the
    specification: the row that [calculate_averages] (and
    [calculate_average_macros], which is the same call) holds for a diet
    type is made of the three means taken over the records of that diet
    type, each over the values of its own field that are not null, and a
    diet type without records has no row.  A field that is null in every
    record of the group has the mean NaN: nothing is raised. *)
Theorem calculate_averages_computeMeans df d :
  avg_loc d (calculate_averages df) = computeMeans df d ∧
  avg_loc d (calculate_average_macros df) = computeMeans df d ∧
  ∀ c row, avg_loc d (calculate_averages df) = Some row →
    Forall (λ x, isnan x = true) (column c (select_diet d df)) →
    avg_get c row = nan.
Proof.
  unfold calculate_average_macros, calculate_averages, groupby_mean, computeMeans.
  rewrite avg_loc_fmap by done.
  fold (select_diet d df). pose proof (select_diet_nil df d) as Hnil.
  case_decide as Hd; rewrite elem_of_group_keys in Hd.
  - assert (Some (mkAvg d (Series_mean (column Protein_g (select_diet d df)))
                          (Series_mean (column Carbs_g (select_diet d df)))
                          (Series_mean (column Fat_g (select_diet d df)))) =
            match select_diet d df with
            | [] => None
            | _ => Some (mkAvg d (mean_excluding_null (Protein <$> select_diet d df))
                                 (mean_excluding_null (Carbs <$> select_diet d df))
                                 (mean_excluding_null (Fat <$> select_diet d df)))
            end) as Heq.
    { destruct (select_diet d df) as [| r g] eqn:Hsel; [naive_solver |].
      unfold column. by rewrite !Series_mean_excluding_null. }
    split_and!; [exact Heq.. |].
    intros c row [= <-] Hall. destruct c; simpl; by apply Series_mean_all_null.
  - split_and!; [by rewrite (proj2 Hnil Hd).. | done].
Qed.

End Means.

(** The scenario of the specification with the carbs of the vegan record
    missing: the vegan mean of carbs is undefined. *)
Lemma calculate_averages_computeMeans_witness :
  Forall (λ x, isnan x = true) (column Carbs_g (select_diet "vegan" scenario_null)) ∧
  avg_get Carbs_g (mkAvg "vegan" (q 10) (Series_mean [None]) (q 2)) = None.
Proof.
  split; [repeat constructor |].
  refine (proj2 (proj2 (calculate_averages_computeMeans (num := Exact.t)
                          scenario_null "vegan"))
            Carbs_g _ _ _).
  - reflexivity.
  - repeat constructor.
Defined.

(** ** What [store_in_nosql] writes *)

Section Store.
Context {num : Type} `{FloatOps num} {pd : Pandas}.
Implicit Types (df : DataFrame num) (w : World num) (self : AzuriteFunction).

Lemma build_documents_run rows df docs w :
  build_documents rows df docs w =
  (Ok (docs ++ documents_from (clock w) (ticks w) rows df)%list,
   mkWorld (files w) (dirs w) (clock w) (ticks w + 2 * length rows)).
Proof.
  revert docs w. induction rows as [| row rows IH]; intros docs w.
  - destruct w. simpl. unfold mret, M_ret. rewrite app_nil_r. do 3 f_equal. lia.
  - cbn [build_documents]. unfold mbind, M_bind, datetime_now_isoformat. simpl.
    rewrite IH. simpl. unfold documents_from. rewrite imap_cons, <- app_assoc. simpl.
    f_equal.
    + do 3 f_equal.
      * do 2 f_equal; lia.
      * apply imap_ext. intros i r _. simpl. do 2 f_equal; lia.
    + f_equal. lia.
Qed.

Lemma store_in_nosql_run self avg_macros df w :
  store_in_nosql self avg_macros df w = (Ok avg_macros, stored self avg_macros df w).
Proof.
  unfold store_in_nosql, stored, setup_nosql_directory, json_dump,
    datetime_now_isoformat, mbind, M_bind, mret, M_ret.
  destruct (decide (nosql_dir self ∈ dirs w)) as [Hin | Hnotin]; simpl.
  - rewrite !decide_True by done. simpl. rewrite build_documents_run. simpl.
    by rewrite decide_True by done.
  - rewrite !decide_True by set_solver. simpl. rewrite build_documents_run. simpl.
    by rewrite decide_True by set_solver.
Qed.

End Store.

(** ** The documents *)

Lemma fmap_imap_const {A B C} (f : nat → A → B) (g : B → C) (h : A → C) (l : list A) :
  (∀ i x, g (f i x) = h x) → g <$> imap f l = h <$> l.
Proof.
  intros Hgf. revert f Hgf. induction l as [| x l IH]; intros f Hgf; [done |].
  rewrite imap_cons, !fmap_cons, Hgf. f_equal. apply IH. intros i y. apply Hgf.
Qed.

(** [lower] followed by [replace] is the [_id] of the specification,
    character by character. *)
Lemma lower_char_lowercase_of c : lower_char c = lowercase_of c.
Proof. by destruct c as [[] [] [] [] [] [] [] []]. Qed.

Lemma lower_char_space c : Ascii.eqb (lower_char c) " " = Ascii.eqb c " ".
Proof. by destruct c as [[] [] [] [] [] [] [] []]. Qed.

Lemma lower_char_not_upper c : is_upper (lower_char c) = false.
Proof. by destruct c as [[] [] [] [] [] [] [] []]. Qed.

Lemma replace_lower_document_id s : replace " " "_" (lower s) = document_id s.
Proof.
  induction s as [| c s IH]; [done |]. cbn [lower replace document_id].
  by rewrite IH, lower_char_space, lower_char_lowercase_of.
Qed.

Lemma document_id_length s : String.length (document_id s) = String.length s.
Proof. induction s as [| c s IH]; [done |]. simpl. by rewrite IH. Qed.

Lemma document_id_chars s c :
  c ∈ list_ascii_of_string (document_id s) → c ≠ " "%char ∧ is_upper c = false.
Proof.
  induction s as [| c0 s IH]; cbn [document_id list_ascii_of_string].
  - by intros ?%elem_of_nil.
  - rewrite elem_of_cons. intros [-> | Hc]; [| by apply IH].
    rewrite <- lower_char_lowercase_of.
    destruct (Ascii.eqb_spec c0 " ") as [-> | Hne]; [done |].
    split; [| apply lower_char_not_upper].
    intros Heq. pose proof (lower_char_space c0) as Hsp.
    rewrite Heq in Hsp. by destruct (Ascii.eqb_spec c0 " ").
Qed.

Section Documents.
Context {num : Type} `{FloatOps num} {pd : Pandas}.
Implicit Types (df : DataFrame num) (w : World num) (self : AzuriteFunction).

Lemma documents_from_diet_types clock t (avg_macros : list (AvgRow num)) df :
  diet_type <$> documents_from clock t avg_macros df = avg_Diet_type <$> avg_macros.
Proof. by apply fmap_imap_const. Qed.

Lemma calculate_averages_keys df :
  avg_Diet_type <$> calculate_averages df = group_keys df.
Proof.
  unfold calculate_averages, groupby_mean. rewrite <- list_fmap_compose.
  apply list_fmap_id.
Qed.

(** C10.  After [store_in_nosql] has run on the grouped means of a frame,
    the documents file holds one document for each diet type of the
    frame and no other; the documents come in strictly ascending order
    of diet type, which is the order of the group keys and depends on the
    frame only.  The [_id] of each document is the [_id] of the
    specification for its diet type: every letter in lower case, every
    space an underscore, the other characters as they are; it has the
    length of the diet type and holds neither a space nor an upper-case
    letter. *)
Theorem documents_one_per_diet_type_in_sorted_order self df w :
  ∃ docs,
    files (store_in_nosql self (calculate_averages df) df w).2
      !! os_path_join (nosql_dir self) "diet_documents.json" = Some (DietDocuments docs) ∧
    diet_type <$> docs = group_keys df ∧
    StronglySorted str_lt (diet_type <$> docs) ∧
    NoDup (diet_type <$> docs) ∧
    (∀ d, d ∈ diet_type <$> docs ↔ d ∈ Diet_type <$> df) ∧
    Forall (λ doc, _id doc = document_id (diet_type doc)) docs ∧
    Forall (λ doc, String.length (_id doc) = String.length (diet_type doc) ∧
                   ∀ c, c ∈ list_ascii_of_string (_id doc) →
                        c ≠ " "%char ∧ is_upper c = false) docs.
Proof.
  rewrite store_in_nosql_run. eexists. split; [apply lookup_insert_eq |].
  rewrite documents_from_diet_types, calculate_averages_keys.
  split_and!.
  - done.
  - apply group_keys_sorted.
  - apply NoDup_group_keys.
  - intros d. apply elem_of_group_keys.
  - apply Forall_forall. intros doc Hdoc. unfold documents_from in Hdoc.
    apply elem_of_lookup_imap in Hdoc as (i & row & -> & _).
    apply replace_lower_document_id.
  - apply Forall_forall. intros doc Hdoc. unfold documents_from in Hdoc.
    apply elem_of_lookup_imap in Hdoc as (i & row & -> & _).
    cbn [make_document _id diet_type]. rewrite replace_lower_document_id.
    split; [apply document_id_length | apply document_id_chars].
Qed.

End Documents.

(** Three diet types, one of them with a space and one with a space and
    an accented capital: the documents come in the order of the code
    points, and the [_id] of ["Paleo Diet"] is ["paleo_diet"]. *)
Lemma documents_one_per_diet_type_in_sorted_order_witness :
  ∃ docs : list (Document Exact.t),
    files (store_in_nosql AzuriteFunction_init (calculate_averages diets3) diets3 world0).2
      !! "simulated_nosql/diet_documents.json" = Some (DietDocuments docs) ∧
    diet_type <$> docs = ["Paleo Diet"; "keto"; String "201" "COLE Diet"] ∧
    _id <$> docs = ["paleo_diet"; "keto"; String "233" "cole_diet"].
Proof.
  destruct (documents_one_per_diet_type_in_sorted_order (num := Exact.t)
              AzuriteFunction_init diets3 world0)
    as (docs & Hfile & Hkeys & _ & _ & _ & Hid & _).
  exists docs. split; [exact Hfile |]. split; [exact Hkeys |].
  apply Forall_fmap_ext_1 in Hid. rewrite Hid.
  transitivity (document_id <$> (diet_type <$> docs)).
  - rewrite <- list_fmap_compose. reflexivity.
  - rewrite Hkeys. reflexivity.
Defined.

(** ** Running the aggregation again *)

Section Idempotence.
Context {num : Type} `{FloatOps num} {pd : Pandas}.
Implicit Types (df : DataFrame num) (w : World num) (self : AzuriteFunction).

Lemma process_frame_run self df w :
  process_frame self df w =
  (Ok "Data processed and stored successfully", stored self (calculate_averages df) df w).
Proof.
  unfold process_frame, mbind, M_bind. by rewrite store_in_nosql_run.
Qed.

(** Without their timestamps the documents depend on the rows of
    [avg_macros] and on the frame only. *)
Lemma documents_from_erased clock t (avg_macros : list (AvgRow num)) df :
  erase_document_times <$> documents_from clock t avg_macros df =
  (λ row, erase_document_times (make_document row df "" "")) <$> avg_macros.
Proof. by apply fmap_imap_const. Qed.

(** The files of the store, without their timestamps, after a run that
    started in [w]: the four artifacts are functions of the frame. *)
Lemma stored_files_erased self avg_macros df w :
  erase_times <$> files (stored self avg_macros df w) =
  let d := nosql_dir self in
  <[os_path_join d "diet_documents.json" :=
      DietDocuments ((λ row, erase_document_times (make_document row df "" "")) <$> avg_macros)]>
  (<[os_path_join d "metadata.json" :=
       MetadataJson (mkMeta "" (length df) (Series_unique (Diet_type <$> df))
                            (Series_unique (Cuisine_type <$> df))
                            (blob_name self) (container_name self))]>
   (<[os_path_join d "detailed_statistics.json" := DetailedStatistics (detailed_statistics df)]>
    (<[os_path_join d "avg_macronutrients.json" := AvgMacronutrients avg_macros]>
     (erase_times <$> files w)))).
Proof.
  unfold stored. cbn [files]. rewrite !fmap_insert. cbn [erase_times].
  by rewrite documents_from_erased.
Qed.

(** C8.  The aggregation is a function of the records.  A second run on
    the same frame, started in the world the first run has left, returns
    the same status and leaves every file of the store as it was, the
    timestamps apart; and two runs on the same frame started in any two
    worlds (other clock, other files) write the same means, the same
    detailed statistics and the same documents, the timestamps apart. *)
Theorem aggregation_is_idempotent self df w :
  let first := process_frame self df w in
  let second := process_frame self df first.2 in
  second.1 = first.1 ∧
  erase_times <$> files second.2 = erase_times <$> files first.2 ∧
  ∀ w' f, f ∈ ["avg_macronutrients.json"; "detailed_statistics.json";
               "metadata.json"; "diet_documents.json"] →
    erase_times <$> (files (process_frame self df w').2 !! os_path_join (nosql_dir self) f) =
    erase_times <$> (files first.2 !! os_path_join (nosql_dir self) f).
Proof.
  cbn zeta. rewrite !process_frame_run. cbn [fst snd]. split_and!.
  - done.
  - rewrite (stored_files_erased _ _ _ (stored _ _ _ _)), !stored_files_erased.
    cbn zeta. apply map_eq. intros k. rewrite !lookup_insert.
    repeat case_decide; done.
  - intros w' f Hf. rewrite process_frame_run. cbn [snd].
    rewrite <- !lookup_fmap, !stored_files_erased. cbn zeta.
    rewrite !elem_of_cons, elem_of_nil in Hf.
    destruct Hf as [-> | [-> | [-> | [-> | []]]]];
      rewrite !lookup_insert; repeat case_decide; done.
Qed.

End Idempotence.

(** The metadata of the scenario, written by a run in the empty world and
    by a run in the world that the first run has left: the two differ in
    [processed_at] only. *)
Lemma aggregation_is_idempotent_witness :
  let first := process_frame AzuriteFunction_init scenario (world0 (num := Exact.t)) in
  let path := os_path_join (nosql_dir AzuriteFunction_init) "metadata.json" in
  erase_times <$> (files (process_frame AzuriteFunction_init scenario first.2).2 !! path) =
  erase_times <$> (files first.2 !! path).
Proof.
  intros first path.
  refine (proj2 (proj2 (aggregation_is_idempotent AzuriteFunction_init scenario world0))
            first.2 "metadata.json" _).
  do 2 apply list_elem_of_further. apply list_elem_of_here.
Defined.

(** ** Queries *)

Section Query.
Context {num : Type} `{FloatOps num} {pd : Pandas}.
Implicit Types (w : World num) (self : AzuriteFunction).

Lemma query_nosql_absent self dt w :
  files w !! os_path_join (nosql_dir self) "diet_documents.json" = None →
  query_nosql self dt w = (Ok None, w).
Proof.
  intros Hnone. unfold query_nosql, try_except, mbind, M_bind, json_load.
  by rewrite Hnone.
Qed.

(** Whatever the argument, the value returned is the whole list read from
    the file. *)
Lemma query_nosql_present self dt w docs :
  files w !! os_path_join (nosql_dir self) "diet_documents.json" = Some (DietDocuments docs) →
  query_nosql self dt w = (Ok (Some docs), w).
Proof.
  intros Hsome. unfold query_nosql, try_except, mbind, M_bind, json_load.
  rewrite Hsome. simpl. by destruct (truthy dt).
Qed.

(** C7.  A query made while the documents file does not exist returns
    [None] and raises nothing, the world is left as it is; a query on a
    store that holds documents returns a list, also when no document
    matches, so the caller tells the two apart. *)
Theorem query_before_persistence_returns_None self dt w :
  files w !! os_path_join (nosql_dir self) "diet_documents.json" = None →
  query_nosql self dt w = (Ok None, w) ∧
  ∀ w' docs,
    files w' !! os_path_join (nosql_dir self) "diet_documents.json" = Some (DietDocuments docs) →
    ∃ l, (query_nosql self dt w').1 = Ok (Some l) ∧
         (query_nosql self dt w').1 ≠ (query_nosql self dt w).1.
Proof.
  intros Hnone. split; [by apply query_nosql_absent |].
  intros w' docs Hsome. exists docs.
  by rewrite (query_nosql_present _ _ _ _ Hsome), (query_nosql_absent _ _ _ Hnone).
Qed.

End Query.

(** A query for keto in the empty world, against the same query once the
    scenario has been processed: no document is a keto document, and the
    answer is a list all the same. *)
Lemma query_before_persistence_returns_None_witness :
  let stored_world := (process_frame AzuriteFunction_init scenario world0).2 in
  query_nosql AzuriteFunction_init (Some "keto") (world0 (num := Exact.t)) = (Ok None, world0) ∧
  ∃ l, (query_nosql AzuriteFunction_init (Some "keto") stored_world).1 = Ok (Some l) ∧
       (query_nosql AzuriteFunction_init (Some "keto") stored_world).1 ≠
       (query_nosql AzuriteFunction_init (Some "keto") world0).1.
Proof.
  intros stored_world.
  destruct (query_before_persistence_returns_None (num := Exact.t)
              AzuriteFunction_init (Some "keto") world0 eq_refl) as [Hnone Hsome].
  split; [exact Hnone |].
  eapply (Hsome stored_world). vm_compute. reflexivity.
Defined.

(** C1 (the code departs from the claim).  Once the scenario of the
    specification has been processed, the query for ["Paleo"] returns
    both documents, the vegan one included: the case-insensitive filter
    selects the paleo document alone, but [query_nosql] computes it for
    printing and returns the unfiltered list. *)
Theorem query_nosql_returns_unfiltered_documents :
  let stored_world := (process_frame AzuriteFunction_init scenario world0).2 in
  ∃ paleo vegan : Document Exact.t,
    (query_nosql AzuriteFunction_init (Some "Paleo") stored_world).1
      = Ok (Some [paleo; vegan]) ∧
    diet_type paleo = "paleo" ∧
    diet_type vegan = "vegan" ∧
    matching "Paleo" [paleo; vegan] = [paleo].
Proof.
  intros stored_world. do 2 eexists. split; [by vm_compute |].
  by vm_compute.
Qed.

(** ** Counting and ranking cuisines *)

Lemma StronglySorted_lookup {A} (R : relation A) (l : list A) i j a b :
  StronglySorted R l → i < j → l !! i = Some a → l !! j = Some b → R a b.
Proof.
  intros Hs. revert i j. induction Hs as [| x l Hs IH Hx]; intros i j Hij Hi Hj; [done |].
  destruct j as [| j]; [lia |]. destruct i as [| i]; simpl in *.
  - injection Hi as ->. rewrite Forall_forall in Hx. apply Hx.
    by eapply list_elem_of_lookup_2.
  - eapply (IH i j); [lia | done..].
Qed.

Lemma sum_list_with_take {A} (f : A → nat) (l : list A) k :
  sum_list_with f (take k l) ≤ sum_list_with f l.
Proof.
  revert k. induction l as [| x l IH]; intros [| k]; simpl; try lia.
  specialize (IH k). lia.
Qed.

Section ValueCounts.
Context {pd : Pandas} `{!PandasLaws pd}.
Implicit Types (s : list string).

(** [value_counts] lists every distinct value once, with the number of
    its occurrences. *)
Lemma value_counts_Permutation s :
  Series_value_counts s ≡ₚ (λ c, (c, occurrences c s)) <$> Series_unique s.
Proof. apply value_counts_sort_Permutation. Qed.

Lemma value_counts_keys s : (Series_value_counts s).*1 ≡ₚ Series_unique s.
Proof.
  rewrite value_counts_Permutation, <- list_fmap_compose.
  assert (Heq : fst ∘ (λ c, (c, occurrences c s)) <$> Series_unique s = Series_unique s)
    by apply list_fmap_id.
  by rewrite Heq.
Qed.

Lemma sum_value_counts s : sum_list (Series_value_counts s).*2 = length s.
Proof.
  rewrite value_counts_Permutation, <- list_fmap_compose, <- (sum_occurrences s).
  generalize (Series_unique s). intros u.
  induction u as [| c u IH]; csimpl; [done |]. by rewrite IH.
Qed.

(** The first [k] entries of [value_counts]. *)
Lemma head_value_counts_ok (k : nat) s :
  top_cuisines_ok k (length s) s (Series_head k (Series_value_counts s)).
Proof.
  unfold Series_head.
  pose proof (value_counts_Permutation s) as Hperm.
  pose proof (value_counts_keys s) as Hkeys.
  pose proof (sum_value_counts s) as Hsum.
  assert (Hsorted : StronglySorted (λ a b : string * nat, b.2 ≤ a.2) (Series_value_counts s))
    by apply value_counts_sort_descending.
  set (vc := Series_value_counts s) in *.
  split_and!.
  - rewrite length_take. lia.
  - rewrite length_take. f_equal. by rewrite <- Hkeys, length_fmap.
  - intros i j a b Hij Hi Hj.
    apply lookup_take_Some in Hi as [Hi _]. apply lookup_take_Some in Hj as [Hj _].
    exact (StronglySorted_lookup _ _ i j a b Hsorted Hij Hi Hj).
  - rewrite fmap_take. eapply sublist_NoDup; [| apply sublist_take].
    rewrite Hkeys. apply NoDup_unique.
  - intros c n Hin. apply elem_of_take in Hin as (i & Hi & _).
    apply list_elem_of_lookup_2 in Hi. rewrite Hperm in Hi.
    apply list_elem_of_fmap in Hi as (c' & [= -> ->] & Hc).
    by rewrite elem_of_unique in Hc.
  - intros c n c' Hin Hc' Hnot.
    assert (Hin' : (c', occurrences c' s) ∈ vc).
    { rewrite Hperm. apply list_elem_of_fmap. exists c'. by rewrite elem_of_unique. }
    rewrite <- (take_drop k vc) in Hin', Hsorted.
    apply elem_of_app in Hin' as [Hin' | Hin'].
    + destruct Hnot. apply list_elem_of_fmap. by exists (c', occurrences c' s).
    + exact (StronglySorted_app_1_elem_of _ _ _ _ _ Hsorted Hin Hin').
  - rewrite <- Hsum, fmap_take. apply sum_list_with_take.
Qed.

End ValueCounts.

(** *** A stable sort gives the order of first appearance *)

Section Ranking.
Variable seen : list string.
Abbreviation before := (ranked_before seen).
Abbreviation earlier := (tabulated_before seen).

Lemma insert_desc_sorted x l :
  StronglySorted before l → Forall (earlier x) l →
  StronglySorted before (insert_desc x l).
Proof.
  induction 1 as [| y l Hs IH Hy]; intros Hx; simpl.
  - repeat constructor.
  - apply Forall_cons in Hx as [Hxy Hx].
    destruct (Nat.ltb_spec x.2 y.2) as [Hlt | Hge].
    + constructor; [by apply IH |].
      rewrite insert_desc_Permutation. constructor; [by left | done].
    + constructor; [by constructor |].
      assert (Hbxy : before x y).
      { unfold ranked_before, tabulated_before in *. lia. }
      constructor; [done |].
      rewrite Forall_forall in Hy, Hx |- *. intros z Hz.
      specialize (Hy z Hz). specialize (Hx z Hz).
      unfold ranked_before, tabulated_before in *. lia.
Qed.

Lemma stable_descending_sorted l :
  StronglySorted earlier l → StronglySorted before (stable_descending l).
Proof.
  induction 1 as [| x l Hs IH Hx]; simpl; [constructor |].
  apply insert_desc_sorted; [done |].
  by rewrite stable_descending_Permutation.
Qed.

End Ranking.

Lemma unique_in_order_of_first_seen s :
  StronglySorted (λ a b, first_seen a s < first_seen b s) (Series_unique s).
Proof.
  induction s as [| x s IH]; simpl; [constructor |].
  constructor.
  - induction IH as [| a u Hs IHu Ha]; [constructor |].
    rewrite filter_cons. case_decide as Hax; [| done].
    constructor; [done |].
    rewrite Forall_forall in Ha |- *. intros b Hb.
    apply list_elem_of_filter in Hb as [Hbx Hb].
    rewrite !decide_False by done. specialize (Ha b Hb). lia.
  - apply Forall_forall. intros b Hb.
    apply list_elem_of_filter in Hb as [Hbx _].
    rewrite decide_True by done. rewrite decide_False by done. lia.
Qed.

(** When the sort of [value_counts] is the stable one, the entries come
    in strictly descending order of count, entries of equal count in
    order of first appearance: the order that the specification
    describes. *)
Lemma stable_value_counts_ranked {pd : Pandas} (k : nat) (s : list string) :
  (∀ l, value_counts_sort l = stable_descending l) →
  ranked s (Series_head k (Series_value_counts s)).
Proof.
  intros Hstable. unfold Series_head, Series_value_counts. rewrite Hstable.
  set (table := (λ c, (c, occurrences c s)) <$> Series_unique s).
  assert (Hsorted : StronglySorted (ranked_before s) (stable_descending table)).
  { apply stable_descending_sorted. unfold table.
    apply StronglySorted_fmap with (R1 := λ a b, first_seen a s < first_seen b s).
    - done.
    - apply unique_in_order_of_first_seen. }
  intros i j a b Hij Hi Hj.
  apply lookup_take_Some in Hi as [Hi _]. apply lookup_take_Some in Hj as [Hj _].
  exact (StronglySorted_lookup _ _ i j a b Hsorted Hij Hi Hj).
Qed.

Section Cuisines.
Context {num : Type} `{FloatOps num} {pd : Pandas} `{!PandasLaws pd}.
Implicit Types (df : DataFrame num) (w : World num) (self : AzuriteFunction).

(** C5 (as amended).  The top cuisines of a diet type, in the detailed
    statistics (at most 3) and in the document (at most 5): as many
    entries as the diet type has cuisines, up to 3 or 5; in descending
    order of count, no entry before an entry of larger count; no cuisine
    twice; every entry a cuisine of a record of the diet type with the
    number of such records; no cuisine left out that has more records
    than a cuisine listed; and counts that add up to at most the count of
    the group.  The order of entries of equal count is the one the sort
    of the installed pandas gives. *)
Theorem top_cuisines_descending_and_bounded self df w :
  (∀ d stats, detailed_statistics df !! d = Some stats →
     top_cuisines_ok 3 (count stats) (Cuisine_type <$> select_diet d df)
       (top_cuisines stats)) ∧
  (∀ docs doc,
     files (store_in_nosql self (calculate_averages df) df w).2
       !! os_path_join (nosql_dir self) "diet_documents.json" = Some (DietDocuments docs) →
     doc ∈ docs →
     top_cuisines_ok 5 (recipe_count doc) (Cuisine_type <$> select_diet (diet_type doc) df)
       (cuisines doc)).
Proof.
  split.
  - intros d stats. rewrite detailed_statistics_lookup. case_decide; [| done].
    intros [= <-]. cbn [count top_cuisines diet_statistics].
    rewrite <- (length_fmap Cuisine_type). apply head_value_counts_ok.
  - intros docs doc. rewrite store_in_nosql_run. unfold stored. cbn [files snd].
    rewrite lookup_insert_eq. intros [= <-] Hdoc.
    apply elem_of_lookup_imap in Hdoc as (i & row & -> & _).
    cbn [make_document recipe_count cuisines diet_type].
    rewrite <- (length_fmap Cuisine_type). apply head_value_counts_ok.
Qed.

End Cuisines.

(** Eleven keto recipes of seven cuisines, two of them with two recipes
    each: the statistics list d, a and b, the document lists g and f
    after them. *)
Lemma top_cuisines_descending_and_bounded_witness :
  top_cuisines_ok 3 11 cuisines11 [("d", 3); ("a", 2); ("b", 2)] ∧
  top_cuisines_ok 5 11 cuisines11 [("d", 3); ("a", 2); ("b", 2); ("g", 1); ("f", 1)].
Proof.
  pose proof (top_cuisines_descending_and_bounded (num := Exact.t)
                AzuriteFunction_init keto11 world0) as [Hstats Hdocs].
  split.
  - exact (Hstats "keto" _ eq_refl).
  - let docs := eval vm_compute in
        (documents_from (clock (world0 (num := Exact.t))) 1
           (calculate_averages keto11) keto11) in
    match docs with
    | ?doc :: _ => refine (Hdocs docs doc _ _)
    end.
    + vm_compute. reflexivity.
    + apply list_elem_of_here.
Defined.

(** C5 (counterexample).  The same eleven recipes.  The cuisine b is
    seen before the cuisine a and both have two recipes, yet the top
    cuisines of the detailed statistics list a before b: the entries of
    equal count are not in order of first appearance. *)
Lemma top_cuisines_ties_against_first_seen_order :
  ∃ stats, detailed_statistics keto11 !! "keto" = Some stats ∧
    top_cuisines stats = [("d", 3); ("a", 2); ("b", 2)] ∧
    first_seen "b" cuisines11 < first_seen "a" cuisines11 ∧
    ¬ ranked (Cuisine_type <$> select_diet "keto" keto11) (top_cuisines stats).
Proof.
  eexists. split; [by vm_compute |]. split; [by vm_compute |].
  split; [vm_compute; lia |].
  intros Hranked.
  specialize (Hranked 1 2 ("a", 2) ("b", 2) ltac:(lia) eq_refl eq_refl).
  vm_compute in Hranked. destruct Hranked as [Hlt | [_ Hlt]]; lia.
Qed.

(** ** Derived ratios *)

Section Ratios.
Context {num : Type} `{NaNLaws num}.
Implicit Types (df : DataFrame num) (r : Row num).

(** The two new columns, row by row. *)
Lemma add_new_metrics_rows df :
  add_new_metrics df =
  (λ r, mkMetric r
          (if negb (feqb (Carbs r) fzero) then fdiv (Protein r) (Carbs r) else nan)
          (if negb (feqb (Fat r) fzero) then fdiv (Carbs r) (Fat r) else nan)) <$> df.
Proof.
  unfold add_new_metrics, np_where, column.
  induction df as [| r df IH]; [done |]. csimpl. f_equal. exact IH.
Qed.

Lemma add_new_metrics_keeps_rows df : row <$> add_new_metrics df = df.
Proof.
  rewrite add_new_metrics_rows, <- list_fmap_compose. apply list_fmap_id.
Qed.

(** C4 (as amended).  [add_new_metrics] keeps the rows and gives each
    the two ratios.  The protein-to-carbs ratio is NaN when the carbs are
    0 and is the quotient protein / carbs when the carbs compare unequal
    to 0, null carbs included; that quotient is NaN as soon as the
    protein or the carbs are null, so the ratio of such a record is
    undefined too.  The same holds of the carbs-to-fat ratio with carbs
    over fat. *)
Theorem ratios_of_add_new_metrics df :
  row <$> add_new_metrics df = df ∧
  ∀ m, m ∈ add_new_metrics df →
    (feqb (Carbs (row m)) fzero = true → Protein_to_Carbs_ratio m = nan) ∧
    (feqb (Carbs (row m)) fzero = false →
       Protein_to_Carbs_ratio m = fdiv (Protein (row m)) (Carbs (row m))) ∧
    (isnan (Protein (row m)) = true ∨ isnan (Carbs (row m)) = true →
       isnan (Protein_to_Carbs_ratio m) = true) ∧
    (feqb (Fat (row m)) fzero = true → Carbs_to_Fat_ratio m = nan) ∧
    (feqb (Fat (row m)) fzero = false →
       Carbs_to_Fat_ratio m = fdiv (Carbs (row m)) (Fat (row m))) ∧
    (isnan (Carbs (row m)) = true ∨ isnan (Fat (row m)) = true →
       isnan (Carbs_to_Fat_ratio m) = true).
Proof.
  split; [apply add_new_metrics_keeps_rows |].
  rewrite add_new_metrics_rows.
  intros m Hm. apply list_elem_of_fmap in Hm as (r & -> & _). simpl.
  split_and!.
  - by intros ->.
  - by intros ->.
  - intros Hnan. destruct (feqb (Carbs r) fzero) eqn:Hz; simpl.
    + apply isnan_nan.
    + destruct Hnan; [by apply fdiv_nan_l | by apply fdiv_nan_r].
  - by intros ->.
  - by intros ->.
  - intros Hnan. destruct (feqb (Fat r) fzero) eqn:Hz; simpl.
    + apply isnan_nan.
    + destruct Hnan; [by apply fdiv_nan_l | by apply fdiv_nan_r].
Qed.

End Ratios.

(** The second record of the scenario has no carbs: its protein-to-carbs
    ratio is null, and its carbs-to-fat ratio is 0 / 10. *)
Lemma ratios_of_add_new_metrics_witness :
  let m := mkMetric (mkRow "paleo" "recipe 2" "american" (q 20) (q 0) (q 10))
                    None (Exact.div (q 0) (q 10)) in
  Protein_to_Carbs_ratio m = None ∧ Carbs_to_Fat_ratio m = Exact.div (q 0) (q 10).
Proof.
  intros m.
  assert (Hm : m ∈ add_new_metrics scenario).
  { apply list_elem_of_further, list_elem_of_here. }
  destruct (proj2 (ratios_of_add_new_metrics (num := Exact.t) scenario) m Hm)
    as (Hzero & _ & _ & _ & Hfat & _).
  split; [exact (Hzero eq_refl) | exact (Hfat eq_refl)].
Defined.

(** C4 (counterexample).  A dataset of one record without protein and
    with 2 g of carbs, in binary64: cleaning leaves the protein null, the
    carbs are not 0, and the protein-to-carbs ratio is NaN.  The ratio is
    undefined although the denominator is not 0. *)
Lemma ratio_undefined_with_nonzero_carbs :
  let r := mkRow "keto" "recipe 1" "american" S754_nan (B64.of_Z 2) (B64.of_Z 1) in
  ∃ m, (main_analysis [r]).2 = [m] ∧
       row m = r ∧
       isnan (Protein_to_Carbs_ratio m) = true ∧
       feqb (Carbs (row m)) fzero = false.
Proof. intros r. eexists. split; [by vm_compute |]. by vm_compute. Qed.

(** In binary64 the quotient by zero is an infinity; [np.where] puts NaN
    in its place. *)
Example ratio_of_zero_carbs_is_not_infinite :
  let r := mkRow "keto" "recipe 1" "american" (B64.of_Z 20) (B64.of_Z 0) (B64.of_Z 10) in
  fdiv (Protein r) (Carbs r) = S754_infinity false ∧
  Protein_to_Carbs_ratio <$> add_new_metrics [r] = [S754_nan].
Proof. by vm_compute. Qed.

(** In exact arithmetic the ratio is undefined exactly for a zero
    denominator or a null operand. *)
Lemma exact_ratio_undefined_iff (df : DataFrame Exact.t) m :
  m ∈ add_new_metrics df →
  isnan (Protein_to_Carbs_ratio m) = true ↔
  feqb (Carbs (row m)) fzero = true ∨
  isnan (Carbs (row m)) = true ∨ isnan (Protein (row m)) = true.
Proof.
  rewrite add_new_metrics_rows. intros Hm.
  apply list_elem_of_fmap in Hm as (r & -> & _). simpl.
  destruct (Protein r) as [p |], (Carbs r) as [c |]; simpl;
    try destruct (Qeq_bool c 0) eqn:Hc; simpl; rewrite ?Hc; simpl; naive_solver.
Qed.

(** ** Exact arithmetic: means, minima and maxima *)

Section ExactMeans.
Implicit Types (s : list Exact.t) (qs : list Q) (t q lo hi : Q).
Local Open Scope Q_scope.

Lemma exact_present s : filter (λ x, isnan x = false) s = Some <$> omap id s.
Proof.
  induction s as [| [q |] s IH]; [done | |].
  - rewrite filter_cons_True by done. by rewrite IH.
  - rewrite filter_cons_False by done. exact IH.
Qed.

Lemma exact_sum t qs : foldl fadd (Some t) (Some <$> qs) = Some (foldl Qplus t qs).
Proof. revert t. induction qs as [| q qs IH]; intros t; [done |]. csimpl. apply IH. Qed.

Lemma exact_max (x : Q) qs :
  ∃ hi, foldl fmax (Some x) (Some <$> qs) = Some hi ∧ x <= hi ∧ Forall (λ q, q <= hi) qs.
Proof.
  revert x. induction qs as [| q qs IH]; intros x.
  - exists x. split_and!; [done | apply Qle_refl | constructor].
  - csimpl. unfold fmax at 2. simpl.
    destruct (Qle_bool q x) eqn:Hqx; simpl.
    + apply Qle_bool_iff in Hqx. destruct (IH x) as (hi & -> & Hx & Hall).
      exists hi. split_and!; [done.. |]. constructor; [by eapply Qle_trans | done].
    + assert (x <= q) as Hxq.
      { apply Qlt_le_weak, Qnot_le_lt. intros Hle. apply Qle_bool_iff in Hle. congruence. }
      destruct (IH q) as (hi & -> & Hq & Hall).
      exists hi. split_and!; [done | by eapply Qle_trans | by constructor].
Qed.

Lemma exact_min (x : Q) qs :
  ∃ lo, foldl fmin (Some x) (Some <$> qs) = Some lo ∧ lo <= x ∧ Forall (λ q, lo <= q) qs.
Proof.
  revert x. induction qs as [| q qs IH]; intros x.
  - exists x. split_and!; [done | apply Qle_refl | constructor].
  - csimpl. unfold fmin at 2. simpl.
    destruct (Qle_bool x q) eqn:Hxq; simpl.
    + apply Qle_bool_iff in Hxq. destruct (IH x) as (lo & -> & Hx & Hall).
      exists lo. split_and!; [done.. |]. constructor; [by eapply Qle_trans | done].
    + assert (q <= x) as Hqx.
      { apply Qlt_le_weak, Qnot_le_lt. intros Hle. apply Qle_bool_iff in Hle. congruence. }
      destruct (IH q) as (lo & -> & Hq & Hall).
      exists lo. split_and!; [done | by eapply Qle_trans | by constructor].
Qed.

Lemma inject_succ (n : nat) :
  inject_Z (Z.of_nat (S n)) == inject_Z (Z.of_nat n) + 1.
Proof. rewrite Nat2Z.inj_succ. unfold Z.succ. by rewrite inject_Z_plus. Qed.

Lemma exact_sum_bounds lo hi t qs :
  Forall (λ q, lo <= q ∧ q <= hi) qs →
  t + lo * inject_Z (Z.of_nat (length qs)) <= foldl Qplus t qs ∧
  foldl Qplus t qs <= t + hi * inject_Z (Z.of_nat (length qs)).
Proof.
  intros Hall. revert t. induction Hall as [| q qs [Hlo Hhi] _ IH]; intros t.
  - cbn [foldl length]. change (inject_Z (Z.of_nat 0)) with 0. split; lra.
  - cbn [foldl length]. destruct (IH (t + q)) as [IHlo IHhi].
    rewrite inject_succ. split; lra.
Qed.

Lemma of_nat_nonzero (n : nat) : Qeq_bool (inject_Z (Z.of_nat (S n))) 0 = false.
Proof. done. Qed.

(** The mean of a column with a value that is not null is defined. *)
Lemma exact_mean_defined s :
  (∃ x, x ∈ s ∧ isnan x = false) → isnan (Series_mean s) = false.
Proof.
  intros (x & Hx & Hnn). rewrite Series_mean_excluding_null. unfold mean_excluding_null.
  assert (Hin : x ∈ filter (λ x, isnan x = false) s) by by apply list_elem_of_filter.
  rewrite exact_present in *. destruct (omap id s) as [| q qs]; [by apply elem_of_nil in Hin |].
  change (@fzero Exact.t exact) with (Some 0 : Exact.t).
  rewrite exact_sum, length_fmap. done.
Qed.

(** A defined mean lies between the minimum and the maximum. *)
Lemma exact_mean_between s m :
  Series_mean s = Some m →
  ∃ lo hi, Series_min s = Some lo ∧ Series_max s = Some hi ∧ lo <= m ∧ m <= hi.
Proof.
  rewrite Series_mean_excluding_null. unfold mean_excluding_null, Series_min, Series_max.
  rewrite exact_present. destruct (omap id s) as [| x qs]; [done |].
  change (@fzero Exact.t exact) with (Some 0 : Exact.t).
  rewrite exact_sum, length_fmap.
  cbn [fdiv of_int exact Exact.div Exact.of_nat length]. rewrite of_nat_nonzero. intros [= <-].
  rewrite !fmap_cons. cbn beta iota.
  destruct (exact_min x qs) as (lo & Hmin & Hlo & Hlos).
  destruct (exact_max x qs) as (hi & Hmax & Hhi & His).
  exists lo, hi. split_and!; [done.. | |].
  - apply Qle_shift_div_l; [done |].
    assert (Hall : Forall (λ q, lo <= q ∧ q <= hi) (x :: qs)).
    { constructor; [done |]. apply Forall_and. done. }
    destruct (exact_sum_bounds lo hi 0 (x :: qs) Hall) as [Hs _]. simpl in Hs. lra.
  - apply Qle_shift_div_r; [done |].
    assert (Hall : Forall (λ q, lo <= q ∧ q <= hi) (x :: qs)).
    { constructor; [done |]. apply Forall_and. done. }
    destruct (exact_sum_bounds lo hi 0 (x :: qs) Hall) as [_ Hs]. simpl in Hs. lra.
Qed.

End ExactMeans.

(** C6 (as amended).  In exact arithmetic the mean protein of a diet type
    lies between the minimum and the maximum protein of its detailed
    statistics, whenever the three are defined. *)
Theorem exact_mean_protein_between_min_and_max {pd : Pandas}
    (df : DataFrame Exact.t) d stats :
  detailed_statistics df !! d = Some stats →
  isnan (avg_protein stats) = false →
  isnan (min_protein stats) = false →
  isnan (max_protein stats) = false →
  Exact.le (min_protein stats) (avg_protein stats) ∧
  Exact.le (avg_protein stats) (max_protein stats).
Proof.
  rewrite detailed_statistics_lookup. case_decide; [| done]. intros [= <-].
  cbn [avg_protein min_protein max_protein diet_statistics].
  destruct (Series_mean _) as [m |] eqn:Hmean; [| done]. intros _ _ _.
  destruct (exact_mean_between _ _ Hmean) as (lo & hi & -> & -> & Hlo & Hhi).
  done.
Qed.

(** The paleo group of the scenario: 20 <= 25 <= 30. *)
Lemma exact_mean_protein_between_min_and_max_witness :
  Exact.le (q 20) (Series_mean [q 30; q 20]) ∧ Exact.le (Series_mean [q 30; q 20]) (q 30).
Proof.
  exact (exact_mean_protein_between_min_and_max scenario "paleo" _
           eq_refl eq_refl eq_refl eq_refl).
Defined.

(** C6 (counterexample).  Three keto records of 0.1 g protein in
    binary64: the minimum and the maximum are 0.1, the sum
    0.1 + 0.1 + 0.1 rounds to 0.30000000000000004 and the mean, its
    quotient by 3, to 0.10000000000000002, which is above the maximum. *)
Lemma binary64_mean_protein_above_max :
  ∃ stats, detailed_statistics keto3 !! "keto" = Some stats ∧
    min_protein stats = S754_finite false 7205759403792794 (-56) ∧
    max_protein stats = S754_finite false 7205759403792794 (-56) ∧
    avg_protein stats = S754_finite false 7205759403792795 (-56) ∧
    SFleb (avg_protein stats) (max_protein stats) = false.
Proof. eexists. split; [by vm_compute |]. by vm_compute. Qed.

(** The order of the additions does not matter here: the three values are
    equal, and every way of adding them gives the same rounded sum, whose
    third is above 0.1. *)
Example binary64_sum_of_three_tenths :
  let x := B64.decimal 1 1 in
  B64.add (B64.add (B64.add fzero x) x) x = S754_finite false 5404319552844596 (-54) ∧
  B64.add (B64.add x x) x = S754_finite false 5404319552844596 (-54) ∧
  B64.add x (B64.add x x) = S754_finite false 5404319552844596 (-54) ∧
  B64.add x (B64.add (B64.add fzero x) x) = S754_finite false 5404319552844596 (-54) ∧
  SFltb x (B64.div (S754_finite false 5404319552844596 (-54)) (B64.of_Z 3)) = true.
Proof. by vm_compute. Qed.

(** ** Cleaning *)

Section Cleaning.
Context {num : Type} `{FloatOps num} {pd : Pandas}.
Implicit Types (df : DataFrame num) (c : Macro) (v : num).

Lemma column_fill_column c v df :
  column c (fill_column c v df) = Series_fillna v (column c df).
Proof.
  unfold column, fill_column, Series_fillna. rewrite <- !list_fmap_compose.
  apply list_fmap_ext. intros _ r _. simpl.
  destruct (isnan (getcol c r)) eqn:Hr; [| done]. by destruct c.
Qed.

Lemma column_fill_column_other c c' v df :
  c ≠ c' → column c (fill_column c' v df) = column c df.
Proof.
  intros Hne. unfold column, fill_column. rewrite <- list_fmap_compose.
  apply list_fmap_ext. intros _ r _. simpl.
  destruct (isnan (getcol c' r)); [| done]. by destruct c, c'.
Qed.

Lemma fill_column_strings c v df :
  Diet_type <$> fill_column c v df = Diet_type <$> df ∧
  Cuisine_type <$> fill_column c v df = Cuisine_type <$> df ∧
  Recipe_name <$> fill_column c v df = Recipe_name <$> df.
Proof.
  unfold fill_column. rewrite <- !list_fmap_compose.
  split_and!; apply list_fmap_ext; intros _ r _; simpl;
    destruct (isnan (getcol c r)); try done; by destruct c.
Qed.

(** Under copy-on-write the three fills reach no column: the frame is
    returned as it was read. *)
Lemma load_and_clean_data_unchanged df :
  copy_on_write = true → load_and_clean_data df = df.
Proof.
  intros Hcow. unfold load_and_clean_data, numeric_columns, fillna_inplace.
  by rewrite Hcow.
Qed.

(** Where the fill reaches the frame, the three columns are filled one
    after the other. *)
Lemma load_and_clean_data_filled df :
  copy_on_write = false →
  load_and_clean_data df =
  foldl (λ df col, fill_column col (Series_mean (column col df)) df) df numeric_columns.
Proof.
  intros Hcow. unfold load_and_clean_data, numeric_columns, fillna_inplace.
  by rewrite Hcow.
Qed.

(** Every column is then filled with its own mean, taken over the whole
    frame as it was read. *)
Lemma load_and_clean_data_column df c :
  copy_on_write = false →
  column c (load_and_clean_data df) =
  Series_fillna (Series_mean (column c df)) (column c df).
Proof.
  intros Hcow. rewrite load_and_clean_data_filled by done.
  unfold numeric_columns. cbn [foldl].
  destruct c.
  - by rewrite !column_fill_column_other, column_fill_column by done.
  - by rewrite column_fill_column_other, column_fill_column,
      !column_fill_column_other by done.
  - by rewrite column_fill_column, !column_fill_column_other by done.
Qed.

Lemma Series_fillna_defined v (s : list num) :
  isnan v = false → Forall (λ x, isnan x = false) (Series_fillna v s).
Proof.
  intros Hv. unfold Series_fillna. apply Forall_fmap, Forall_forall.
  intros x _. simpl. by destruct (isnan x) eqn:Hx.
Qed.


End Cleaning.




(** Under copy-on-write the null of the scenario stays as well, in exact
    arithmetic. *)
Example copy_on_write_keeps_the_null :
  column Carbs_g (load_and_clean_data (pd := pandas_copy_on_write) scenario_null)
  = [q 5; q 0; None].
Proof. by vm_compute. Qed.

(** * Further properties *)

(** ** The store after [store_in_nosql] *)

Lemma os_path_join_inj d f1 f2 : os_path_join d f1 = os_path_join d f2 → f1 = f2.
Proof.
  unfold os_path_join. induction d as [| c d IH]; simpl.
  - intros Heq. by injection Heq.
  - intros Heq. injection Heq as Heq. by apply IH.
Qed.

Section StoreMore.
Context {num : Type} `{FloatOps num} {pd : Pandas}.
Implicit Types (df : DataFrame num) (w : World num) (self : AzuriteFunction).

(** The four files of the store, as [store_in_nosql] leaves them. *)
Lemma stored_lookup self (avg_macros : list (AvgRow num)) df w :
  let d := nosql_dir self in
  let fs := files (stored self avg_macros df w) in
  fs !! os_path_join d "diet_documents.json" =
    Some (DietDocuments (documents_from (clock w) (S (ticks w)) avg_macros df)) ∧
  fs !! os_path_join d "metadata.json" =
    Some (MetadataJson (mkMeta (clock w (ticks w)) (length df)
                          (Series_unique (Diet_type <$> df))
                          (Series_unique (Cuisine_type <$> df))
                          (blob_name self) (container_name self))) ∧
  fs !! os_path_join d "detailed_statistics.json" =
    Some (DetailedStatistics (detailed_statistics df)) ∧
  fs !! os_path_join d "avg_macronutrients.json" = Some (AvgMacronutrients avg_macros).
Proof.
  cbn zeta. unfold stored. cbn [files].
  split_and!.
  - apply lookup_insert_eq.
  - rewrite lookup_insert_ne by (intros Heq; by apply os_path_join_inj in Heq).
    apply lookup_insert_eq.
  - rewrite !(lookup_insert_ne _ _ (os_path_join _ "detailed_statistics.json"))
      by (intros Heq; by apply os_path_join_inj in Heq).
    apply lookup_insert_eq.
  - rewrite !(lookup_insert_ne _ _ (os_path_join _ "avg_macronutrients.json"))
      by (intros Heq; by apply os_path_join_inj in Heq).
    apply lookup_insert_eq.
Qed.

(** X1.  What is stored is what is read back: after [store_in_nosql], a
    query, whatever its argument, returns the documents just written,
    one for each row of [avg_macros] and in the same order, each with the
    diet type and the three means of its row; the query raises nothing
    and leaves the world as it is. *)
Theorem query_after_store_returns_written_documents
    self (avg_macros : list (AvgRow num)) df w dt :
  let w' := (store_in_nosql self avg_macros df w).2 in
  ∃ docs,
    query_nosql self dt w' = (Ok (Some docs), w') ∧
    (λ doc, (diet_type doc, macronutrients doc)) <$> docs =
    (λ a, (avg_Diet_type a, mkMacros (avg_Protein a) (avg_Carbs a) (avg_Fat a)))
      <$> avg_macros.
Proof.
  cbn zeta. rewrite store_in_nosql_run. cbn [snd].
  destruct (stored_lookup self avg_macros df w) as (Hdocs & _).
  eexists. split; [by apply query_nosql_present |].
  unfold documents_from. by apply fmap_imap_const.
Qed.


End StoreMore.


(** ** The artifacts of one run agree with each other *)

Section Artifacts.
Context {num : Type} `{FloatOps num} {pd : Pandas} `{!PandasLaws pd}.
Implicit Types (df : DataFrame num) (w : World num) (self : AzuriteFunction).

Lemma sum_recipe_counts clock t df (keys : list string) (f : string → AvgRow num) :
  (∀ k, avg_Diet_type (f k) = k) →
  sum_list (recipe_count <$> documents_from clock t (f <$> keys) df) =
  sum_list_with (λ d, length (select_diet d df)) keys.
Proof.
  intros Hkey. unfold documents_from.
  rewrite (fmap_imap_const _ recipe_count (λ a, length (select_diet (avg_Diet_type a) df)))
    by done.
  rewrite <- list_fmap_compose.
  induction keys as [| k keys IH]; csimpl; [done |]. by rewrite Hkey, IH.
Qed.

(** X3.  The documents and the detailed statistics of one run agree:
    every document has an entry of its diet type in the statistics, with
    the document's recipe count as count and the first three of the
    document's cuisines as top cuisines; and the statistics have no
    entry without a document. *)
Theorem documents_agree_with_detailed_statistics self df w docs stats :
  let fs := files (process_frame self df w).2 in
  fs !! os_path_join (nosql_dir self) "diet_documents.json" = Some (DietDocuments docs) →
  fs !! os_path_join (nosql_dir self) "detailed_statistics.json"
    = Some (DetailedStatistics stats) →
  (∀ doc, doc ∈ docs →
     ∃ s, stats !! diet_type doc = Some s ∧
          count s = recipe_count doc ∧
          top_cuisines s = take 3 (cuisines doc)) ∧
  (∀ d, is_Some (stats !! d) → d ∈ diet_type <$> docs).
Proof.
  cbn zeta. rewrite process_frame_run. cbn [snd].
  destruct (stored_lookup self (calculate_averages df) df w) as (Hdocs & _ & Hstats & _).
  rewrite Hdocs, Hstats. intros [= <-] [= <-]. split.
  - intros doc Hdoc. unfold documents_from in Hdoc.
    apply elem_of_lookup_imap in Hdoc as (i & row & -> & Hrow).
    assert (Hin : avg_Diet_type row ∈ Diet_type <$> df).
    { apply elem_of_group_keys. rewrite <- calculate_averages_keys.
      apply list_elem_of_fmap_2. by eapply list_elem_of_lookup_2. }
    rewrite detailed_statistics_lookup. cbn [make_document diet_type].
    rewrite decide_True by done. eexists. split; [done |].
    cbn [count top_cuisines diet_statistics recipe_count cuisines].
    split; [done |]. unfold make_document, Series_head. cbn [cuisines].
    by rewrite take_take.
  - intros d. rewrite detailed_statistics_lookup. case_decide as Hd; [| by intros [? ?]].
    intros _. rewrite documents_from_diet_types, calculate_averages_keys.
    by apply elem_of_group_keys.
Qed.

(** X4.  The metadata of a run agree with its documents: the total
    number of records is the length of the frame and the sum of the
    recipe counts of the documents; the diet types listed are those of
    the documents, each once; and every cuisine of a document is among
    the cuisine types listed. *)
Theorem metadata_agree_with_documents self df w docs meta :
  let fs := files (process_frame self df w).2 in
  fs !! os_path_join (nosql_dir self) "diet_documents.json" = Some (DietDocuments docs) →
  fs !! os_path_join (nosql_dir self) "metadata.json" = Some (MetadataJson meta) →
  total_records meta = length df ∧
  sum_list (recipe_count <$> docs) = total_records meta ∧
  diet_types meta ≡ₚ diet_type <$> docs ∧
  NoDup (cuisine_types meta) ∧
  (∀ doc c n, doc ∈ docs → (c, n) ∈ cuisines doc → c ∈ cuisine_types meta) ∧
  source_blob meta = blob_name self ∧
  source_container meta = container_name self.
Proof.
  cbn zeta. rewrite process_frame_run. cbn [snd].
  destruct (stored_lookup self (calculate_averages df) df w) as (Hdocs & Hmeta & _ & _).
  rewrite Hdocs, Hmeta. intros [= <-] [= <-].
  split_and!; [done | | | | | done..].
  - cbn [total_records]. unfold calculate_averages, groupby_mean.
    rewrite sum_recipe_counts by done.
    apply sum_group_lengths; [apply NoDup_group_keys |].
    intros r Hr. apply elem_of_group_keys. by apply list_elem_of_fmap_2.
  - cbn [diet_types]. rewrite documents_from_diet_types, calculate_averages_keys.
    unfold group_keys. by rewrite merge_sort_Permutation.
  - apply NoDup_unique.
  - intros doc c n Hdoc Hc. cbn [cuisine_types]. apply elem_of_unique.
    unfold documents_from in Hdoc.
    apply elem_of_lookup_imap in Hdoc as (i & row & -> & _).
    cbn [make_document cuisines] in Hc.
    destruct (head_value_counts_ok 5 (Cuisine_type <$> select_diet (avg_Diet_type row) df))
      as (_ & _ & _ & _ & Hmem & _).
    apply Hmem in Hc as [Hc _].
    apply list_elem_of_fmap in Hc as (r & -> & Hr).
    apply list_elem_of_fmap_2. unfold select_diet in Hr.
    by apply list_elem_of_filter in Hr as [_ Hr].
Qed.

(** X5.  When the records of a diet type have at most five distinct
    cuisines, the document of that diet type lists every one of them and
    the counts listed add up to the recipe count: nothing is cut. *)
Theorem cuisines_complete_up_to_five self df w docs doc :
  files (process_frame self df w).2
    !! os_path_join (nosql_dir self) "diet_documents.json" = Some (DietDocuments docs) →
  doc ∈ docs →
  length (Series_unique (Cuisine_type <$> select_diet (diet_type doc) df)) ≤ 5 →
  sum_list (cuisines doc).*2 = recipe_count doc ∧
  ∀ r, r ∈ df → Diet_type r = diet_type doc → Cuisine_type r ∈ (cuisines doc).*1.
Proof.
  rewrite process_frame_run. cbn [snd].
  destruct (stored_lookup self (calculate_averages df) df w) as (Hdocs & _).
  rewrite Hdocs. intros [= <-] Hdoc. unfold documents_from in Hdoc.
  apply elem_of_lookup_imap in Hdoc as (i & row & -> & _).
  cbn [make_document cuisines recipe_count diet_type]. intros Hfew.
  set (s := Cuisine_type <$> select_diet (avg_Diet_type row) df) in *.
  assert (Hall : Series_head 5 (Series_value_counts s) = Series_value_counts s).
  { unfold Series_head. apply take_ge.
    by rewrite value_counts_Permutation, length_fmap. }
  rewrite Hall. split.
  - rewrite sum_value_counts. unfold s. by rewrite length_fmap.
  - intros r Hr Hd. rewrite value_counts_Permutation, <- list_fmap_compose.
    apply list_elem_of_fmap. exists (Cuisine_type r). split; [done |].
    apply elem_of_unique. unfold s. apply list_elem_of_fmap_2.
    unfold select_diet. by apply list_elem_of_filter.
Qed.

End Artifacts.

(** The scenario: each diet type has one cuisine. *)
Lemma cuisines_complete_up_to_five_witness :
  sum_list [("american", 2)].*2 = 2 ∧
  ∀ r, r ∈ scenario → Diet_type r = "paleo" → Cuisine_type r ∈ [("american", 2)].*1.
Proof.
  pose proof (cuisines_complete_up_to_five (num := Exact.t)
                AzuriteFunction_init scenario world0) as Hthm.
  let docs := eval vm_compute in
      (documents_from (clock (world0 (num := Exact.t))) 1
         (calculate_averages scenario) scenario) in
  match docs with
  | ?doc :: _ => refine (Hthm docs doc _ _ _)
  end.
  - vm_compute. reflexivity.
  - apply list_elem_of_here.
  - vm_compute. lia.
Defined.

(** The scenario: the paleo document counts 2 recipes, as the paleo
    entry of the statistics does. *)
Lemma documents_agree_with_detailed_statistics_witness :
  ∃ s, detailed_statistics scenario !! "paleo" = Some s ∧
       count s = 2 ∧ top_cuisines s = take 3 [("american", 2)].
Proof.
  pose proof (documents_agree_with_detailed_statistics (num := Exact.t)
                AzuriteFunction_init scenario world0) as Hthm.
  let docs := eval vm_compute in
      (documents_from (clock (world0 (num := Exact.t))) 1
         (calculate_averages scenario) scenario) in
  match docs with
  | ?doc :: _ =>
      refine (proj1 (Hthm docs (detailed_statistics scenario) _ _) doc _)
  end.
  - vm_compute. reflexivity.
  - vm_compute. reflexivity.
  - apply list_elem_of_here.
Defined.

(** The scenario: 3 records, 2 paleo and 1 vegan. *)
Lemma metadata_agree_with_documents_witness :
  ∃ docs : list (Document Exact.t),
    length docs = 2 ∧ sum_list (recipe_count <$> docs) = 3.
Proof.
  pose proof (metadata_agree_with_documents (num := Exact.t)
                AzuriteFunction_init scenario world0) as Hthm.
  let docs := eval vm_compute in
      (documents_from (clock (world0 (num := Exact.t))) 1
         (calculate_averages scenario) scenario) in
  exists docs; split; [reflexivity |];
  refine (proj1 (proj2 (Hthm docs
            (mkMeta "0" 3 ["paleo"; "vegan"] ["american"; "asian"] "AllDiets.csv" "datasets")
            _ _))).
  - vm_compute. reflexivity.
  - vm_compute. reflexivity.
Defined.

(** ** Cleaning, again *)

Section CleaningMore.
Context {num : Type} `{FloatOps num} {pd : Pandas}.
Implicit Types (df : DataFrame num) (c : Macro) (v : num) (s : list num).

Lemma getcol_setcol c v (r : Row num) : getcol c (setcol c v r) = v.
Proof. by destruct c. Qed.

Lemma setcol_setcol c v v' (r : Row num) : setcol c v (setcol c v' r) = setcol c v r.
Proof. by destruct c. Qed.

(** Filling a column twice with the same value is filling it once. *)
Lemma fill_column_idemp c v df :
  fill_column c v (fill_column c v df) = fill_column c v df.
Proof.
  unfold fill_column. rewrite <- list_fmap_compose.
  apply list_fmap_ext. intros _ r _. simpl.
  destruct (isnan (getcol c r)) eqn:Hr; [| by rewrite Hr].
  rewrite getcol_setcol. destruct (isnan v); [apply setcol_setcol | done].
Qed.

(** A column without NaN is left as it is. *)
Lemma fill_column_defined c v df :
  Forall (λ x, isnan x = false) (column c df) → fill_column c v df = df.
Proof.
  unfold column, fill_column. rewrite Forall_fmap. intros Hall.
  rewrite <- (list_fmap_id df) at 2. apply Forall_fmap_ext_1.
  eapply Forall_impl; [exact Hall |]. intros r Hr. simpl in *. by rewrite Hr.
Qed.

(** Fills of two different columns can be exchanged. *)
Lemma fill_column_comm c c' v v' df :
  c ≠ c' →
  fill_column c v (fill_column c' v' df) =
  fill_column c' v' (fill_column c v df).
Proof.
  intros Hne. unfold fill_column. rewrite <- !list_fmap_compose.
  apply list_fmap_ext. intros _ r _. simpl.
  destruct (isnan (getcol c r)) eqn:Hc, (isnan (getcol c' r)) eqn:Hc';
    rewrite ?Hc, ?Hc'; try done;
    destruct c, c'; try done; simpl in *; rewrite ?Hc, ?Hc'; done.
Qed.

(** The mean does not see the values put in place of NaN by a NaN. *)
Lemma Series_mean_fillna_nan v s :
  isnan v = true → Series_mean (Series_fillna v s) = Series_mean s.
Proof.
  intros Hv. rewrite !Series_mean_excluding_null. unfold mean_excluding_null.
  replace (filter (λ x, isnan x = false) (Series_fillna v s))
    with (filter (λ x, isnan x = false) s); [done |].
  unfold Series_fillna. induction s as [| x s IH]; [done |].
  rewrite fmap_cons, !filter_cons. destruct (isnan x) eqn:Hx.
  - rewrite !decide_False by congruence. exact IH.
  - rewrite !decide_True by done. by rewrite IH.
Qed.

(** Filling a column with the mean of what it holds after a fill with its
    mean changes nothing. *)
Lemma fill_column_mean_again c df (X : DataFrame num) :
  let m := Series_mean (column c df) in
  column c X = Series_fillna m (column c df) →
  fill_column c m X = X →
  fill_column c (Series_mean (column c X)) X = X.
Proof.
  cbn zeta. intros Hcol Hfix. destruct (isnan (Series_mean (column c df))) eqn:Hm.
  - by rewrite Hcol, Series_mean_fillna_nan.
  - apply fill_column_defined. rewrite Hcol. by apply Series_fillna_defined.
Qed.

(** X6.  Cleaning is idempotent and touches nothing but the nulls: a
    cleaned frame is left as it is by a second cleaning; the number of
    rows and the three string columns are kept; and a macronutrient
    value that is not null stays where it is. *)
Theorem load_and_clean_data_idempotent df :
  load_and_clean_data (load_and_clean_data df) = load_and_clean_data df ∧
  length (load_and_clean_data df) = length df ∧
  Diet_type <$> load_and_clean_data df = Diet_type <$> df ∧
  Cuisine_type <$> load_and_clean_data df = Cuisine_type <$> df ∧
  Recipe_name <$> load_and_clean_data df = Recipe_name <$> df ∧
  ∀ c i x, column c df !! i = Some x → isnan x = false →
    column c (load_and_clean_data df) !! i = Some x.
Proof.
  destruct copy_on_write eqn:Hcow.
  { rewrite !load_and_clean_data_unchanged by done. by split_and!. }
  pose proof (load_and_clean_data_filled df Hcow) as Hdf.
  unfold numeric_columns in Hdf. cbn [foldl] in Hdf.
  split_and!.
  - set (X := load_and_clean_data df) in *.
    assert (HP : fill_column Protein_g (Series_mean (column Protein_g X)) X = X).
    { apply (fill_column_mean_again _ df); [by apply load_and_clean_data_column |].
      rewrite Hdf.
      rewrite (fill_column_comm Protein_g Fat_g) by done.
      rewrite (fill_column_comm Protein_g Carbs_g) by done.
      by rewrite fill_column_idemp. }
    assert (HC : fill_column Carbs_g (Series_mean (column Carbs_g X)) X = X).
    { apply (fill_column_mean_again _ df); [by apply load_and_clean_data_column |].
      rewrite Hdf.
      rewrite (fill_column_comm Carbs_g Fat_g) by done.
      rewrite !column_fill_column_other by done.
      by rewrite fill_column_idemp. }
    assert (HF : fill_column Fat_g (Series_mean (column Fat_g X)) X = X).
    { apply (fill_column_mean_again _ df); [by apply load_and_clean_data_column |].
      rewrite Hdf.
      rewrite !column_fill_column_other by done.
      by rewrite fill_column_idemp. }
    rewrite (load_and_clean_data_filled X Hcow). unfold numeric_columns. cbn [foldl].
    by rewrite HP, HC, HF.
  - rewrite Hdf. unfold fill_column. by rewrite !length_fmap.
  - rewrite Hdf. by rewrite !(proj1 (fill_column_strings _ _ _)).
  - rewrite Hdf. by rewrite !(proj1 (proj2 (fill_column_strings _ _ _))).
  - rewrite Hdf. by rewrite !(proj2 (proj2 (fill_column_strings _ _ _))).
  - intros c i x Hi Hx. rewrite load_and_clean_data_column by done.
    unfold Series_fillna. rewrite list_lookup_fmap, Hi. simpl. by rewrite Hx.
Qed.

End CleaningMore.

(** The scenario with the vegan carbs missing: the carbs of the first
    record, 5, stay. *)
Lemma load_and_clean_data_idempotent_witness :
  column Carbs_g (load_and_clean_data scenario_null) !! 0 = Some (q 5).
Proof.
  exact (proj2 (proj2 (proj2 (proj2 (proj2
           (load_and_clean_data_idempotent (num := Exact.t) scenario_null)))))
           Carbs_g 0 (q 5) eq_refl eq_refl).
Defined.

(** ** Cleaning in exact arithmetic *)

Section ExactCleaning.
Context {pd : Pandas}.
Implicit Types (s : list Exact.t) (qs : list Q) (df : DataFrame Exact.t).
Local Open Scope Q_scope.

Lemma qsum_shift (t : Q) qs : foldl Qplus t qs == t + foldl Qplus 0 qs.
Proof.
  revert t. induction qs as [| x qs IH]; intros t; cbn [foldl]; [lra |].
  rewrite (IH (t + x)), (IH (0 + x)). lra.
Qed.

(** The mean of a column, when it is defined. *)
Lemma exact_mean_value s (m : Q) :
  Series_mean s = Some m →
  omap id s ≠ [] ∧
  m = foldl Qplus 0 (omap id s) / inject_Z (Z.of_nat (length (omap id s))).
Proof.
  rewrite Series_mean_excluding_null. unfold mean_excluding_null.
  rewrite exact_present. destruct (omap id s) as [| x qs] eqn:Hqs; [done |].
  change (@fzero Exact.t exact) with (Some 0 : Exact.t).
  rewrite exact_sum, length_fmap.
  cbn [fdiv of_int exact Exact.div Exact.of_nat length]. rewrite of_nat_nonzero.
  by intros [= <-].
Qed.

Lemma exact_fillna_present (m : Q) s :
  omap id (Series_fillna (Some m : Exact.t) s) = default m <$> s.
Proof.
  unfold Series_fillna. induction s as [| [x |] s IH]; [done | |]; simpl; by f_equal.
Qed.

Lemma exact_fillna_sum (m : Q) s :
  foldl Qplus 0 (default m <$> s) ==
  foldl Qplus 0 (omap id s) +
  (inject_Z (Z.of_nat (length s)) - inject_Z (Z.of_nat (length (omap id s)))) * m.
Proof.
  induction s as [| [x |] s IH].
  - cbn. lra.
  - csimpl. rewrite (qsum_shift (0 + x)), (qsum_shift (0 + x) (omap id s)), IH.
    rewrite !inject_succ. lra.
  - csimpl. rewrite (qsum_shift (0 + m)), IH. rewrite inject_succ. lra.
Qed.

(** X8.  Imputation keeps the mean of a column: in exact arithmetic, a
    column whose mean is defined has the same mean after
    [load_and_clean_data] (up to the representation of the fraction). *)
Theorem load_and_clean_data_keeps_column_mean df (c : Macro) (m : Q) :
  Series_mean (column c df) = Some m →
  ∃ m', Series_mean (column c (load_and_clean_data df)) = Some m' ∧ m' == m.
Proof.
  intros Hmean. destruct copy_on_write eqn:Hcow.
  { rewrite load_and_clean_data_unchanged by done. by exists m. }
  rewrite load_and_clean_data_column, Hmean by done.
  set (s := column c df) in *.
  destruct (exact_mean_value s m Hmean) as [Hne Hm].
  assert (Hn : 0 < inject_Z (Z.of_nat (length (omap id s)))).
  { destruct (omap id s); [done |]. done. }
  assert (HN : 0 < inject_Z (Z.of_nat (length s))).
  { destruct s as [| x s']; [done | done]. }
  assert (Hdef : isnan (Series_mean (Series_fillna (Some m : Exact.t) s)) = false).
  { apply exact_mean_defined. destruct s as [| x s']; [done |].
    exists (default (Some m) (Some <$> x)). split; [| by destruct x].
    destruct x; apply list_elem_of_here. }
  destruct (Series_mean (Series_fillna _ s)) as [m' |] eqn:Hmean'; [| done].
  exists m'. split; [done |].
  destruct (exact_mean_value _ m' Hmean') as [_ ->].
  rewrite exact_fillna_present, length_fmap, exact_fillna_sum.
  assert (Hsum : foldl Qplus 0 (omap id s) == m * inject_Z (Z.of_nat (length (omap id s)))).
  { rewrite Hm, Qmult_comm, Qmult_div_r; [reflexivity | lra]. }
  rewrite Hsum.
  setoid_replace (m * inject_Z (Z.of_nat (length (omap id s))) +
                  (inject_Z (Z.of_nat (length s)) -
                   inject_Z (Z.of_nat (length (omap id s)))) * m)
    with (m * inject_Z (Z.of_nat (length s))) using relation Qeq by ring.
  apply Qdiv_mult_l. by apply Qnot_eq_sym, Qlt_not_eq.
Qed.

(** X7.  Where the fill in place reaches the frame, the ratios of a
    cleaned frame are undefined for a zero denominator only: in exact
    arithmetic, when each of the three columns read has a value that is
    not null, a row of the frame that [main] passes on has a null
    protein-to-carbs ratio exactly when its carbs are 0, and a null
    carbs-to-fat ratio exactly when its fat is 0. *)
Theorem cleaned_ratios_undefined_iff_zero_denominator df m :
  copy_on_write = false →
  (∀ c, ∃ x, x ∈ column c df ∧ isnan x = false) →
  m ∈ (main_analysis df).2 →
  (isnan (Protein_to_Carbs_ratio m) = true ↔ feqb (Carbs (row m)) fzero = true) ∧
  (isnan (Carbs_to_Fat_ratio m) = true ↔ feqb (Fat (row m)) fzero = true).
Proof.
  intros Hcow Hsome. unfold main_analysis. cbn [snd]. rewrite add_new_metrics_rows.
  intros Hm. apply list_elem_of_fmap in Hm as (r & -> & Hr). cbn [row
    Protein_to_Carbs_ratio Carbs_to_Fat_ratio].
  assert (Hdef : ∀ c, isnan (getcol c r) = false).
  { intros c.
    assert (Hall : Forall (λ x, isnan x = false) (column c (load_and_clean_data df))).
    { rewrite load_and_clean_data_column by done.
      by apply Series_fillna_defined, exact_mean_defined. }
    rewrite Forall_forall in Hall. apply Hall. by apply list_elem_of_fmap_2. }
  pose proof (Hdef Protein_g) as HP. pose proof (Hdef Carbs_g) as HC.
  pose proof (Hdef Fat_g) as HF. simpl in HP, HC, HF.
  destruct (Protein r) as [p |], (Carbs r) as [cb |], (Fat r) as [f |]; try done.
  simpl. split.
  - destruct (Qeq_bool cb 0) eqn:Hc; simpl; rewrite ?Hc; done.
  - destruct (Qeq_bool f 0) eqn:Hf; simpl; rewrite ?Hf; done.
Qed.

End ExactCleaning.

(** The carbs of the scenario, the vegan value missing: the mean 5/2
    stays 5/2. *)
Lemma load_and_clean_data_keeps_column_mean_witness :
  ∃ m', Series_mean (column Carbs_g (load_and_clean_data scenario_null)) = Some m' ∧
        (m' == (0 + 5 + 0) / 2)%Q.
Proof.
  exact (load_and_clean_data_keeps_column_mean scenario_null Carbs_g _ eq_refl).
Defined.

(** The second record of the scenario, whose carbs are 0. *)
Lemma cleaned_ratios_undefined_iff_zero_denominator_witness :
  let m := mkMetric (mkRow "paleo" "recipe 2" "american" (q 20) (q 0) (q 10))
                    None (Exact.div (q 0) (q 10)) in
  (isnan (Protein_to_Carbs_ratio m) = true ↔ feqb (Carbs (row m)) fzero = true) ∧
  (isnan (Carbs_to_Fat_ratio m) = true ↔ feqb (Fat (row m)) fzero = true).
Proof.
  intros m.
  refine (cleaned_ratios_undefined_iff_zero_denominator (pd := pandas_view)
            scenario m eq_refl _ _).
  - intros c. exists (getcol c (mkRow "vegan" "recipe 3" "asian" (q 10) (q 40) (q 2))).
    split; [| by destruct c].
    destruct c; do 2 apply list_elem_of_further; apply list_elem_of_here.
  - apply list_elem_of_further, list_elem_of_here.
Defined.

(** ** The top protein recipes *)

Lemma StronglySorted_filter {A} (R : relation A) (P : A → Prop) `{∀ x, Decision (P x)}
    (l : list A) :
  StronglySorted R l → StronglySorted R (filter P l).
Proof.
  induction 1 as [| x l Hs IH Hx]; [constructor |].
  rewrite filter_cons. case_decide; [| done].
  constructor; [done |]. rewrite Forall_forall in Hx |- *.
  intros y Hy. apply list_elem_of_filter in Hy as [_ Hy]. by apply Hx.
Qed.

Section Sorting.
Context {num : Type} `{FloatOps num} {A : Type} (key : A → num).

Lemma insert_descending_Permutation r l : insert_descending key r l ≡ₚ r :: l.
Proof.
  induction l as [| y l IH]; simpl; [done |].
  destruct (sorts_after (key r) (key y)); [| done].
  rewrite IH. apply Permutation_swap.
Qed.

Lemma sort_values_descending_Permutation l : sort_values_descending key l ≡ₚ l.
Proof.
  induction l as [| x l IH]; simpl; [done |].
  by rewrite insert_descending_Permutation, IH.
Qed.

(** With an order on the keys in which no key goes after itself or after
    a key that goes after it, the sort puts no row before a row that
    should precede it. *)
Lemma sort_values_descending_sorted l :
  (∀ x y, sorts_after x y = true → sorts_after y x = false) →
  (∀ x y z, sorts_after x y = false → sorts_after y z = false → sorts_after x z = false) →
  StronglySorted (λ a b, sorts_after (key a) (key b) = false)
    (sort_values_descending key l).
Proof.
  intros Hasym Htrans. induction l as [| r l IH]; simpl; [constructor |].
  generalize dependent (sort_values_descending key l). clear l.
  intros l Hs. induction Hs as [| y l Hs IHl Hy]; simpl.
  - repeat constructor.
  - destruct (sorts_after (key r) (key y)) eqn:Hry.
    + constructor; [done |]. rewrite insert_descending_Permutation.
      constructor; [by apply Hasym | done].
    + constructor; [by constructor |]. constructor; [done |].
      eapply Forall_impl; [exact Hy |]. intros z Hz. simpl in *. by eapply Htrans.
Qed.

End Sorting.

Section TopProtein.
Context {num : Type} `{FloatOps num} {pd : Pandas}.
Implicit Types (df : DataFrame num) (d : string).

Lemma occurrences_cons c x (s : list string) :
  occurrences c (x :: s) = (if decide (x = c) then 1 else 0) + occurrences c s.
Proof. unfold occurrences. rewrite filter_cons. by case_decide. Qed.

(** The rows that [head(n)] keeps of one group are the first rows of the
    group, as many as the group still lacks. *)
Lemma groupby_head_from_select n seen df d :
  select_diet d (groupby_head_from n seen df) =
  take (n - occurrences d seen) (select_diet d df).
Proof.
  unfold select_diet. revert seen. induction df as [| r df IH]; intros seen; simpl.
  - by destruct (n - occurrences d seen).
  - rewrite (filter_cons _ r df). pose proof (occurrences_cons d (Diet_type r) seen) as Hocc.
    destruct (decide (Diet_type r = d)) as [Hd | Hd].
    + rewrite Hd in *. case_decide as Hlt.
      * rewrite filter_cons_True by done. rewrite IH, Hocc.
        destruct (n - occurrences d seen) as [| k] eqn:Hk; [lia |].
        simpl. f_equal. f_equal. lia.
      * rewrite IH, Hocc. replace (n - occurrences d seen) with 0 by lia.
        by replace (n - (1 + occurrences d seen)) with 0 by lia.
    + case_decide.
      * rewrite filter_cons_False by done. rewrite IH, Hocc. done.
      * rewrite IH, Hocc. done.
Qed.

Lemma groupby_head_from_sublist n seen df : groupby_head_from n seen df `sublist_of` df.
Proof.
  revert seen. induction df as [| r df IH]; intros seen; simpl; [done |].
  case_decide; [by apply sublist_skip | by apply sublist_cons].
Qed.

Lemma top_protein_first_five_of_each_diet_aux df d :
  select_diet d (find_top_protein_recipes df) =
    take 5 (select_diet d (sort_values_descending Protein df)) ∧
  sort_values_descending Protein df ≡ₚ df.
Proof.
  split; [| apply sort_values_descending_Permutation].
  unfold find_top_protein_recipes, groupby_head.
  by rewrite groupby_head_from_select.
Qed.

(** X9.  [find_top_protein_recipes] returns, for every diet type, the
    first five rows of that diet type in the frame sorted by protein
    (all of them when the diet type has fewer): [min 5 n] rows for a diet
    type of [n] records.  The rows returned are rows of the frame, in the
    order of the sorted frame, and the second [head(5)] of the printing
    loop cuts nothing. *)
Theorem top_protein_first_five_of_each_diet df d :
  let sorted := sort_values_descending Protein df in
  let top_protein := find_top_protein_recipes df in
  select_diet d top_protein = take 5 (select_diet d sorted) ∧
  length (select_diet d top_protein) = min 5 (length (select_diet d df)) ∧
  top_protein `sublist_of` sorted ∧
  sorted ≡ₚ df ∧
  diet_recipes d top_protein =
    (λ r, (Recipe_name r, Protein r, Cuisine_type r)) <$> select_diet d top_protein.
Proof.
  cbn zeta. unfold find_top_protein_recipes, groupby_head.
  pose proof (groupby_head_from_select 5 [] (sort_values_descending Protein df) d) as Hsel.
  change (5 - occurrences d []) with 5 in Hsel.
  assert (Hlen : length (select_diet d (sort_values_descending Protein df)) =
                 length (select_diet d df)).
  { unfold select_diet. by rewrite sort_values_descending_Permutation. }
  split_and!.
  - exact Hsel.
  - by rewrite Hsel, length_take, Hlen.
  - apply groupby_head_from_sublist.
  - apply sort_values_descending_Permutation.
  - unfold diet_recipes, Series_head. apply take_ge.
    rewrite length_fmap, Hsel, length_take. lia.
Qed.

End TopProtein.

(** ** The order of keys in exact arithmetic *)

Section ExactOrder.
Implicit Types (x y z : Exact.t).
Local Open Scope Q_scope.

Lemma exact_sorts_after_false x y : sorts_after x y = false ↔ not_below x y.
Proof.
  destruct x as [a |], y as [b |]; unfold sorts_after; simpl; try done.
  destruct (Qle_bool b a) eqn:Hba; simpl.
  - by apply Qle_bool_iff in Hba.
  - split; [done |]. intros Hle. apply Qle_bool_iff in Hle. congruence.
Qed.

Lemma exact_sorts_after_asym x y : sorts_after x y = true → sorts_after y x = false.
Proof.
  intros Hxy. apply exact_sorts_after_false.
  destruct (sorts_after x y) eqn:Hxy'; [| done].
  assert (¬ not_below x y) as Hnb by (rewrite <- exact_sorts_after_false; congruence).
  destruct x as [a |], y as [b |]; simpl in *; try done.
  apply Qlt_le_weak, Qnot_le_lt. done.
Qed.

Lemma exact_sorts_after_trans x y z :
  sorts_after x y = false → sorts_after y z = false → sorts_after x z = false.
Proof.
  rewrite !exact_sorts_after_false.
  destruct x as [a |], y as [b |], z as [c |]; simpl; try done.
  intros Hba Hcb. by eapply Qle_trans.
Qed.

(** X10.  In exact arithmetic the rows returned for a diet type are its
    best: the rows of the diet type in the sorted frame are the rows
    returned followed by the rows left out, and no row returned has less
    protein than a row left out; a row without protein is returned only
    when every row left out is without protein too. *)
Theorem top_protein_rows_are_the_highest (df : DataFrame Exact.t) d :
  ∃ rest,
    select_diet d (sort_values_descending Protein df) =
      (select_diet d (find_top_protein_recipes df) ++ rest)%list ∧
    (select_diet d (find_top_protein_recipes df) ++ rest)%list ≡ₚ select_diet d df ∧
    ∀ a b, a ∈ select_diet d (find_top_protein_recipes df) → b ∈ rest →
      not_below (Protein a) (Protein b).
Proof.
  exists (drop 5 (select_diet d (sort_values_descending Protein df))).
  destruct (top_protein_first_five_of_each_diet_aux df d) as [Hsel Hperm].
  rewrite Hsel, take_drop. split_and!; [done | |].
  - unfold select_diet. by rewrite Hperm.
  - intros a b Ha Hb. apply exact_sorts_after_false.
    assert (Hs : StronglySorted (λ a b, sorts_after (Protein a) (Protein b) = false)
                   (select_diet d (sort_values_descending Protein df))).
    { apply StronglySorted_filter, sort_values_descending_sorted.
      - apply exact_sorts_after_asym.
      - apply exact_sorts_after_trans. }
    rewrite <- (take_drop 5) in Hs.
    by apply (StronglySorted_app_1_elem_of _ _ _ _ _ Hs).
Qed.

End ExactOrder.

(** A paleo recipe of 30 g protein is returned, one of 20 g is not put
    before it. *)
Lemma top_protein_rows_are_the_highest_witness :
  ∃ rest,
    select_diet "paleo" (sort_values_descending Protein scenario) =
      (select_diet "paleo" (find_top_protein_recipes scenario) ++ rest)%list ∧
    (select_diet "paleo" (find_top_protein_recipes scenario) ++ rest)%list
      ≡ₚ select_diet "paleo" scenario ∧
    ∀ a b, a ∈ select_diet "paleo" (find_top_protein_recipes scenario) → b ∈ rest →
      not_below (Protein a) (Protein b).
Proof. exact (top_protein_rows_are_the_highest scenario "paleo"). Defined.

(** ** The diet type of highest protein *)

Section Highest.
Context {num : Type} `{FloatOps num} {pd : Pandas}.
Implicit Types (df : DataFrame num).

Lemma group_keys_nil df : group_keys df = [] ↔ df = [].
Proof.
  split; [| by intros ->].
  intros Hnil. destruct df as [| r df]; [done |].
  assert (Diet_type r ∈ group_keys (r :: df)) as Hin.
  { apply elem_of_group_keys. rewrite fmap_cons. apply list_elem_of_here. }
  rewrite Hnil in Hin. by apply elem_of_nil in Hin.
Qed.

Lemma groupby_protein_mean_keys df : (groupby_protein_mean df).*1 = group_keys df.
Proof.
  unfold groupby_protein_mean. rewrite <- list_fmap_compose. apply list_fmap_id.
Qed.

(** X11.  [find_highest_protein_diet] raises exactly on a frame without
    rows (which exception it is depends on the types of the empty
    columns).  On any other frame it returns the mean protein of every
    diet type of the frame, each diet type once: the grouped means in
    another order. *)
Theorem find_highest_protein_diet_fails_on_empty_frame_only df :
  ((∃ e, find_highest_protein_diet df = inl e) ↔ df = []) ∧
  ∀ avg_protein, find_highest_protein_diet df = inr avg_protein →
    avg_protein ≡ₚ groupby_protein_mean df ∧
    NoDup avg_protein.*1 ∧
    (∀ d, d ∈ avg_protein.*1 ↔ d ∈ Diet_type <$> df) ∧
    ∀ d m, (d, m) ∈ avg_protein → m = Series_mean (column Protein_g (select_diet d df)).
Proof.
  unfold find_highest_protein_diet.
  pose proof (sort_values_descending_Permutation snd (groupby_protein_mean df)) as Hperm.
  destruct (sort_values_descending snd (groupby_protein_mean df)) as [| e l] eqn:Hsort.
  - split; [| done]. split; [intros _ | by eexists].
    apply Permutation_nil_l in Hperm. apply group_keys_nil.
    by rewrite <- groupby_protein_mean_keys, <- Hperm.
  - split.
    + split; [by intros [e' ?] |]. intros ->. by apply Permutation_nil_r in Hperm.
    + intros avg [= <-]. split_and!.
      * done.
      * rewrite Hperm, groupby_protein_mean_keys. apply NoDup_group_keys.
      * intros d. rewrite Hperm, groupby_protein_mean_keys. apply elem_of_group_keys.
      * intros d m. rewrite Hperm. unfold groupby_protein_mean.
        intros Hin. by apply list_elem_of_fmap in Hin as (k & [= -> ->] & _).
Qed.

End Highest.

(** X12.  In exact arithmetic the diet type that
    [find_highest_protein_diet] reports, the first of [avg_protein], has
    the highest mean protein: no other diet type has a larger mean, and a
    diet type without any protein value comes first only when no diet
    type has one. *)
Theorem highest_protein_diet_comes_first (df : DataFrame Exact.t) first rest :
  find_highest_protein_diet df = inr (first :: rest) →
  ∀ e, e ∈ rest → not_below first.2 e.2.
Proof.
  unfold find_highest_protein_diet.
  pose proof (sort_values_descending_sorted snd (groupby_protein_mean df)
                exact_sorts_after_asym exact_sorts_after_trans) as Hs.
  destruct (sort_values_descending snd (groupby_protein_mean df)) as [| e0 l]; [done |].
  intros [= -> ->] e He. apply StronglySorted_cons in Hs as [Hall _].
  rewrite Forall_forall in Hall. by apply exact_sorts_after_false, Hall.
Qed.

(** The scenario: paleo, of mean 25, comes before vegan, of mean 10. *)
Lemma highest_protein_diet_comes_first_witness :
  not_below (Series_mean [q 30; q 20]) (Series_mean [q 10]).
Proof.
  refine (highest_protein_diet_comes_first scenario
            ("paleo", Series_mean [q 30; q 20]) [("vegan", Series_mean [q 10])] _
            ("vegan", Series_mean [q 10]) _).
  - vm_compute. reflexivity.
  - apply list_elem_of_here.
Defined.

(** The frame without rows makes the call raise; the scenario has the
    two diet types paleo and vegan. *)
Lemma find_highest_protein_diet_fails_on_empty_frame_only_witness :
  (∃ e, find_highest_protein_diet ([] : DataFrame Exact.t) = inl e) ∧
  ∃ avg_protein, find_highest_protein_diet scenario = inr avg_protein ∧
    NoDup avg_protein.*1 ∧
    ∀ d, d ∈ avg_protein.*1 ↔ d ∈ Diet_type <$> scenario.
Proof.
  split.
  - exact (proj2 (proj1 (find_highest_protein_diet_fails_on_empty_frame_only
                           (num := Exact.t) [])) eq_refl).
  - let v := eval vm_compute in (find_highest_protein_diet scenario) in
    match v with
    | inr ?a =>
        assert (Hrun : find_highest_protein_diet scenario = inr a)
          by (vm_compute; reflexivity);
        exists a; split; [exact Hrun |];
        destruct (proj2 (find_highest_protein_diet_fails_on_empty_frame_only
                           (num := Exact.t) scenario) a Hrun) as (_ & Hnd & Hiff & _)
    end.
    by split.
Defined.

(** ** Azurite and [process_data] *)

Section Process.
Context {num : Type} `{FloatOps num} {pd : Pandas}.
Implicit Types (m : Machine num) (self : AzuriteFunction) (df : DataFrame num).

Lemma after_upload_world self p m :
  world (after_upload self p m) = world m ∧
  local_files (after_upload self p m) = local_files m.
Proof.
  unfold after_upload, upload_csv_to_azurite.
  destruct (truthy p && os_path_exists (default "" p) m); [| done].
  destruct (azurite m); [| done]. by destruct (local_files m !! default "" p).
Qed.

(** The run of [process_data] when the service answers: the upload is
    tried when the path exists and fails when no file can be opened at
    it; then the blob is read and its frame processed. *)
Lemma process_data_connected self p m cs :
  azurite m = Some cs →
  process_data self p m =
  let m1 := after_upload self p m in
  if truthy p && os_path_exists (default "" p) m &&
     bool_decide (local_files m !! default "" p = None)
  then (Ok "Failed: Could not upload CSV to Azurite", m1)
  else
    match (read_csv_from_azurite self m1).1 with
    | Ok (Some df) =>
        (Ok "Data processed and stored successfully",
         mkMachine (stored self (calculate_averages df) df (world m1))
                   (azurite m1) (local_files m1))
    | _ => (Ok "Failed: Could not read data from Azurite", m1)
    end.
Proof.
  intros Hcs. unfold process_data, after_upload, mbind, P_bind, mret, P_ret,
    test_azurite_connection.
  rewrite Hcs. rewrite bool_decide_eq_true_2 by eauto. cbn [negb].
  destruct (truthy p && os_path_exists (default "" p) m) eqn:Hup; cbn [andb].
  - unfold upload_csv_to_azurite. rewrite Hcs.
    destruct (local_files m !! default "" p) as [data |] eqn:Hdata.
    + rewrite bool_decide_eq_false_2 by done. cbn [negb fst snd].
      unfold read_csv_from_azurite. cbn [azurite world local_files].
      rewrite !lookup_insert_eq.
      destruct data as [df |]; [| done].
      unfold lift_world. cbn [world azurite local_files fst].
      by rewrite store_in_nosql_run.
    + by rewrite bool_decide_eq_true_2 by done.
  - cbn [negb]. unfold read_csv_from_azurite. rewrite Hcs.
    destruct (cs !! container_name self) as [bs |]; [| done].
    destruct (bs !! blob_name self) as [[df |] |]; [| done..].
    unfold lift_world. cbn [fst]. by rewrite store_in_nosql_run, Hcs.
Qed.

(** X13.  A run of [process_data] that returns one of its failure
    statuses has written nothing to the store and changed no CSV file,
    and the status tells why: the service is out of reach exactly for
    the first status, and then the whole machine is left as it is; the
    upload fails only for a path that exists and at which there is no
    file to open, a directory; and the data cannot be read only when
    [read_csv_from_azurite] returns [None] for the blob as it is after
    the upload. *)
Theorem process_data_failure_leaves_store_untouched self p m status :
  (process_data self p m).1 = Ok status →
  status ≠ "Data processed and stored successfully" →
  world (process_data self p m).2 = world m ∧
  local_files (process_data self p m).2 = local_files m ∧
  status ∈ ["Failed: Azurite is not running or not accessible";
            "Failed: Could not upload CSV to Azurite";
            "Failed: Could not read data from Azurite"] ∧
  (status = "Failed: Azurite is not running or not accessible" ↔ azurite m = None) ∧
  (azurite m = None → (process_data self p m).2 = m) ∧
  (status = "Failed: Could not upload CSV to Azurite" →
     truthy p = true ∧ default "" p ∈ dirs (world m) ∧
     local_files m !! default "" p = None) ∧
  (status = "Failed: Could not read data from Azurite" →
     (read_csv_from_azurite self (after_upload self p m)).1 = Ok None).
Proof.
  destruct (azurite m) as [cs |] eqn:Hcs.
  - rewrite (process_data_connected _ _ _ _ Hcs). cbn zeta.
    destruct (after_upload_world self p m) as [Hw Hl].
    destruct (truthy p && os_path_exists (default "" p) m &&
              bool_decide (local_files m !! default "" p = None)) eqn:Hup.
    + cbn [fst snd]. intros [= <-] _.
      apply andb_true_iff in Hup as [Hup Hnone]. apply andb_true_iff in Hup as [Hp Hex].
      apply bool_decide_eq_true_1 in Hnone. unfold os_path_exists in Hex.
      rewrite Hnone in Hex. rewrite bool_decide_eq_false_2 in Hex by (by intros [? ?]).
      apply bool_decide_eq_true_1 in Hex.
      split_and!; [done | done | set_solver | done | done | done | done].
    + destruct (read_csv_from_azurite self (after_upload self p m)) as [[[df |] | e] m2] eqn:Hread;
        cbn [fst snd].
      * by intros [= <-].
      * intros [= <-] _.
        split_and!; [done | done | set_solver | done | done | done | done].
      * exfalso. revert Hread. unfold read_csv_from_azurite.
        repeat case_match; intros [= ? ?]; discriminate.
  - unfold process_data, mbind, P_bind, mret, P_ret, test_azurite_connection.
    rewrite Hcs. rewrite bool_decide_eq_false_2 by (by intros [? ?]). cbn [negb fst snd].
    intros [= <-] _.
    split_and!; [done | done | set_solver | done | done | done | done].
Qed.

(** X14.  With the service running and a CSV file at the path given,
    [process_data] uploads the file, reads it back and processes its
    frame, whatever the blob held before: the run ends in success, the
    store is the one [store_in_nosql] makes of the grouped means of that
    frame, the blob holds the file, and the CSV files are left as they
    are. *)
Theorem process_data_processes_the_uploaded_file self path m cs df :
  azurite m = Some cs →
  path ≠ "" →
  local_files m !! path = Some (CsvBlob df) →
  ∃ m', process_data self (Some path) m = (Ok "Data processed and stored successfully", m') ∧
    world m' = (process_frame self df (world m)).2 ∧
    local_files m' = local_files m ∧
    ∃ cs' bs, azurite m' = Some cs' ∧ cs' !! container_name self = Some bs ∧
              bs !! blob_name self = Some (CsvBlob df).
Proof.
  intros Hcs Hpath Hfile. rewrite (process_data_connected _ _ _ _ Hcs). cbn zeta.
  change (default "" (Some path)) with path.
  rewrite Hfile, (bool_decide_eq_false_2 (Some (CsvBlob df) = None)) by done.
  rewrite andb_false_r.
  assert (Hup : after_upload self (Some path) m =
                mkMachine (world m)
                  (Some (<[container_name self :=
                             <[blob_name self := CsvBlob df]>
                               (default ∅ (cs !! container_name self))]> cs))
                  (local_files m)).
  { unfold after_upload, os_path_exists, truthy.
    change (default "" (Some path)) with path.
    rewrite (proj2 (String.eqb_neq _ _) Hpath). rewrite bool_decide_eq_true_2 by eauto.
    cbn [negb andb orb]. unfold upload_csv_to_azurite. by rewrite Hcs, Hfile. }
  rewrite Hup. unfold read_csv_from_azurite. cbn [azurite fst].
  rewrite !lookup_insert_eq. eexists. split; [done |].
  cbn [world local_files azurite]. rewrite process_frame_run. split_and!; [done.. |].
  do 2 eexists. split_and!; [done | apply lookup_insert_eq..].
Qed.


(** X16.  What is uploaded is what is read: after an upload that returns
    [True], [read_csv_from_azurite] returns the frame of the local file
    (and [None] when the file is no CSV); the upload keeps the other
    blobs of the container and the other containers, and touches neither
    the store nor the CSV files. *)
Theorem upload_then_read_returns_the_file self path m :
  (upload_csv_to_azurite self path m).1 = Ok true →
  let m' := (upload_csv_to_azurite self path m).2 in
  ∃ data cs cs',
    local_files m !! path = Some data ∧
    azurite m = Some cs ∧ azurite m' = Some cs' ∧
    (read_csv_from_azurite self m').1 =
      Ok (match data with CsvBlob df => Some df | OtherBlob => None end) ∧
    (∀ c, c ≠ container_name self → cs' !! c = cs !! c) ∧
    (∀ b, b ≠ blob_name self →
       cs' !! container_name self ≫= (λ bs : gmap string (Blob num), bs !! b) =
       cs !! container_name self ≫= (λ bs : gmap string (Blob num), bs !! b)) ∧
    world m' = world m ∧ local_files m' = local_files m.
Proof.
  unfold upload_csv_to_azurite. destruct (azurite m) as [cs |] eqn:Hcs; [| done].
  destruct (local_files m !! path) as [data |] eqn:Hdata; [| done].
  intros _. cbn zeta. cbn [snd]. do 3 eexists. split_and!; [done.. | | | | done | done].
  - unfold read_csv_from_azurite. cbn [azurite]. rewrite !lookup_insert_eq.
    by destruct data.
  - intros c Hc. by rewrite lookup_insert_ne.
  - intros b Hb. rewrite lookup_insert_eq. cbn [mbind option_bind].
    rewrite lookup_insert_ne by done.
    destruct (cs !! container_name self); [done | apply lookup_empty].
Qed.

(** X17.  [process_data] followed by a query, as in [main]: after a run
    that ends in success the query returns the documents of that run,
    those that [store_in_nosql] builds from the frame of the blob as it
    is after the upload and from the grouped means of that frame, one
    for each diet type of that frame; after any other run the query
    answers as it would have before the run. *)
Theorem query_after_process_data self p m dt :
  let r := process_data self p m in
  (r.1 = Ok "Data processed and stored successfully" →
     ∃ df, (read_csv_from_azurite self (after_upload self p m)).1 = Ok (Some df) ∧
           query_nosql self dt (world r.2) =
             (Ok (Some (documents_from (clock (world m)) (S (ticks (world m)))
                          (calculate_averages df) df)), world r.2) ∧
           diet_type <$> documents_from (clock (world m)) (S (ticks (world m)))
                           (calculate_averages df) df = group_keys df) ∧
  (r.1 ≠ Ok "Data processed and stored successfully" →
     query_nosql self dt (world r.2) = query_nosql self dt (world m)).
Proof.
  cbn zeta. destruct (azurite m) as [cs |] eqn:Hcs.
  - rewrite (process_data_connected _ _ _ _ Hcs). cbn zeta.
    destruct (after_upload_world self p m) as [Hw Hl].
    destruct (truthy p && os_path_exists (default "" p) m &&
              bool_decide (local_files m !! default "" p = None)).
    { split; [done |]. intros _. cbn [snd]. by rewrite Hw. }
    destruct (read_csv_from_azurite self (after_upload self p m)).1 as [[df |] | e].
    + split; [| done]. intros _. cbn [snd world]. exists df. split; [done |].
      destruct (stored_lookup self (calculate_averages df) df
                  (world (after_upload self p m))) as (Hdocs & _).
      rewrite Hw in Hdocs at 2 3.
      split; [by apply query_nosql_present |].
      by rewrite documents_from_diet_types, calculate_averages_keys.
    + split; [done |]. intros _. cbn [snd]. by rewrite Hw.
    + split; [done |]. intros _. cbn [snd]. by rewrite Hw.
  - unfold process_data, mbind, P_bind, mret, P_ret, test_azurite_connection.
    rewrite Hcs. rewrite bool_decide_eq_false_2 by (by intros [? ?]). cbn [negb fst snd].
    split; [done |]. by intros _.
Qed.

End Process.

(** The service is out of reach: the run fails and the machine stays.
    The service answers and the path is the directory of the store: the
    upload fails, and the store stays. *)
Lemma process_data_failure_leaves_store_untouched_witness :
  (process_data AzuriteFunction_init (Some "AllDiets.csv") machine_down).2 = machine_down ∧
  let m := mkMachine (mkWorld ∅ {["simulated_nosql"]} (λ n, pretty n) 0) (Some ∅)
             ({[ "AllDiets.csv" := CsvBlob scenario ]} : gmap string (Blob Exact.t)) in
  world (process_data AzuriteFunction_init (Some "simulated_nosql") m).2 = world m ∧
  "simulated_nosql" ∈ dirs (world m).
Proof.
  split.
  - refine (proj1 (proj2 (proj2 (proj2 (proj2
              (process_data_failure_leaves_store_untouched (num := Exact.t)
                 AzuriteFunction_init (Some "AllDiets.csv") machine_down
                 "Failed: Azurite is not running or not accessible" _ _))))) _).
    + reflexivity.
    + discriminate.
    + reflexivity.
  - intros m.
    destruct (process_data_failure_leaves_store_untouched (num := Exact.t)
                AzuriteFunction_init (Some "simulated_nosql") m
                "Failed: Could not upload CSV to Azurite")
      as (Hworld & _ & _ & _ & _ & Hup & _).
    + vm_compute. reflexivity.
    + discriminate.
    + split; [exact Hworld |]. exact (proj1 (proj2 (Hup eq_refl))).
Defined.

(** The scenario as the file [AllDiets.csv], the service running and
    empty. *)
Lemma process_data_processes_the_uploaded_file_witness :
  ∃ m', process_data AzuriteFunction_init (Some "AllDiets.csv") machine_up
          = (Ok "Data processed and stored successfully", m') ∧
    world m' = (process_frame AzuriteFunction_init scenario world0).2.
Proof.
  destruct (process_data_processes_the_uploaded_file (num := Exact.t)
              AzuriteFunction_init "AllDiets.csv" machine_up ∅ scenario
              eq_refl ltac:(discriminate) eq_refl)
    as (m' & Hrun & Hworld & _).
  exists m'. by split.
Defined.


Lemma upload_then_read_returns_the_file_witness :
  (read_csv_from_azurite AzuriteFunction_init
     (upload_csv_to_azurite AzuriteFunction_init "AllDiets.csv"
        machine_up).2).1 = Ok (Some scenario).
Proof.
  destruct (upload_then_read_returns_the_file (num := Exact.t)
              AzuriteFunction_init "AllDiets.csv" machine_up eq_refl)
    as (data & cs & cs' & Hfile & _ & _ & Hread & _).
  rewrite Hread. injection Hfile as <-. reflexivity.
Defined.

(** The scenario uploaded and processed: the query returns the paleo and
    the vegan document of the scenario, whatever the diet type asked
    for. *)
Lemma query_after_process_data_witness :
  ∃ df : DataFrame Exact.t,
    df = scenario ∧
    query_nosql AzuriteFunction_init (Some "paleo")
      (world (process_data AzuriteFunction_init (Some "AllDiets.csv") machine_up).2)
    = (Ok (Some (documents_from (λ n, pretty n) 1 (calculate_averages df) df)),
       world (process_data AzuriteFunction_init (Some "AllDiets.csv") machine_up).2) ∧
    diet_type <$> documents_from (λ n, pretty n) 1 (calculate_averages df) df
      = ["paleo"; "vegan"].
Proof.
  destruct (proj1 (query_after_process_data (num := Exact.t) AzuriteFunction_init
                     (Some "AllDiets.csv") machine_up (Some "paleo")))
    as (df & Hread & Hquery & Hkeys).
  - vm_compute. reflexivity.
  - assert (Hdf : df = scenario).
    { vm_compute in Hread. injection Hread as <-. reflexivity. }
    exists df. split; [exact Hdf |]. split; [exact Hquery |].
    transitivity (group_keys df); [exact Hkeys |]. rewrite Hdf. reflexivity.
Defined.

(** ** Queries never write *)

Section QueryMore.
Context {num : Type} `{FloatOps num} {pd : Pandas}.
Implicit Types (w : World num) (self : AzuriteFunction).

(** X18.  A query reads and never writes: whatever the store holds and
    whatever the query returns or raises, the world after the query is
    the world before it; and the answer depends on the documents file
    only, so two stores that hold the same documents file give the same
    answer. *)
Theorem query_nosql_reads_only self dt w :
  (query_nosql self dt w).2 = w ∧
  ∀ w', files w' !! os_path_join (nosql_dir self) "diet_documents.json" =
        files w !! os_path_join (nosql_dir self) "diet_documents.json" →
    (query_nosql self dt w').1 = (query_nosql self dt w).1.
Proof.
  unfold query_nosql, try_except, mbind, M_bind, mret, M_ret, json_load, as_documents.
  split.
  - destruct (files w !! _) as [[] |]; simpl; try done; by destruct (truthy dt).
  - intros w' ->.
    destruct (files w !! _) as [[] |]; simpl; try done; by destruct (truthy dt).
Qed.

End QueryMore.

(** The empty world and the world in which the scenario is stored hold
    different documents files; a world that differs from the second in
    its clock only gives the same answer. *)
Lemma query_nosql_reads_only_witness :
  let w := (process_frame AzuriteFunction_init scenario (world0 (num := Exact.t))).2 in
  let w' := mkWorld (files w) (dirs w) (λ _, "later") (ticks w) in
  (query_nosql AzuriteFunction_init (Some "paleo") w').1 =
  (query_nosql AzuriteFunction_init (Some "paleo") w).1.
Proof.
  intros w w'.
  exact (proj2 (query_nosql_reads_only (num := Exact.t) AzuriteFunction_init
                  (Some "paleo") w) w' eq_refl).
Defined.
